(** * TODO service: storage, service and route layers

    A shallow embedding of [backend/app/models.py], [backend/app/storage.py],
    [backend/app/services.py] and [backend/app/routes.py], followed by the
    properties of the layered pipeline route -> service -> storage.

    Conventions of the embedding:
    - a Python [int] is a [Z]; a Python [str] is the list of its code points;
    - a [datetime] is a [Z] (a point on the time line); the reading of
      [datetime.utcnow()] is an argument of the operation that takes it;
    - the [dict] of the in-memory store is an association list in insertion
      order, which is the iteration order of a Python dict;
    - a method of a class with mutable attributes is a function from the
      object's state to a result and the state afterwards; a raised exception
      is a result of its own;
    - [with self._lock] serialises the callers: every method below is one
      atomic step, and the lock itself has no counterpart;
    - logging has no effect on results or state and is left out. *)

From Stdlib Require Import ZArith NArith List Bool Lia String Ascii.
From Stdlib Require Import DecimalString.
From Stdlib Require Import Permutation Sorted.
Import ListNotations.
Local Open Scope Z_scope.

(** ** Python built-ins used by the application *)

Module Py.

(** [str]: a sequence of Unicode code points. *)
Definition str := list N.

Definition len (s : str) : Z := Z.of_nat (List.length s).

(** [str.isspace] on one character: the code points CPython classifies as
    whitespace. *)
Definition isspace (c : N) : bool :=
  (((9 <=? c) && (c <=? 13)) || ((28 <=? c) && (c <=? 32))
   || (c =? 133) || (c =? 160) || (c =? 5760)
   || ((8192 <=? c) && (c <=? 8202))
   || (c =? 8232) || (c =? 8233) || (c =? 8239) || (c =? 8287)
   || (c =? 12288))%N.

Fixpoint lstrip (s : str) : str :=
  match s with
  | [] => []
  | c :: r => if isspace c then lstrip r else s
  end.

Definition rstrip (s : str) : str := rev (lstrip (rev s)).

(** [s.strip()] with no argument: whitespace removed at both ends. *)
Definition strip (s : str) : str := rstrip (lstrip s).

(** The code points UTF-8 can encode: the Unicode scalar values, that is
    every code point up to U+10FFFF except the surrogates U+D800 to
    U+DFFF. *)
Definition is_scalar_value (c : N) : bool :=
  ((c <? 55296) || ((57343 <? c) && (c <=? 1114111)))%N.

(** [s.encode("utf-8")] succeeds: no character of [s] is a surrogate. *)
Definition utf8_encodable (s : str) : bool := forallb is_scalar_value s.

(** Truth value of a [str]: the empty string is false. *)
Definition truthy (s : str) : bool :=
  match s with [] => false | _ :: _ => true end.

Section Dict.
Context {V : Type}.

(** [Dict[int, V]], in insertion order. *)
Definition dict := list (Z * V).

(** [d.get(k)] *)
Fixpoint get (d : dict) (k : Z) : option V :=
  match d with
  | [] => None
  | (k', v) :: r => if k' =? k then Some v else get r k
  end.

(** [k in d] *)
Definition contains (d : dict) (k : Z) : bool :=
  match get d k with Some _ => true | None => false end.

(** [d[k] = v]: an existing key keeps its place, a new key goes last. *)
Fixpoint set (d : dict) (k : Z) (v : V) : dict :=
  match d with
  | [] => [(k, v)]
  | (k', v') :: r =>
      if k' =? k then (k, v) :: r else (k', v') :: set r k v
  end.

(** [del d[k]].  Both callers delete keys they have just found in the
    dictionary, so the [KeyError] of a missing key does not arise. *)
Fixpoint del (d : dict) (k : Z) : dict :=
  match d with
  | [] => []
  | (k', v') :: r => if k' =? k then del r k else (k', v') :: del r k
  end.

(** [d.values()], [d.keys()] *)
Definition values (d : dict) : list V := map snd d.
Definition keys (d : dict) : list Z := map fst d.
End Dict.
Arguments dict : clear implicits.

Section Sorted.
Context {A : Type} (key : A -> Z).

Fixpoint insert_by (x : A) (l : list A) : list A :=
  match l with
  | [] => [x]
  | y :: r => if key x <=? key y then x :: l else y :: insert_by x r
  end.

(** A stable ascending sort.  Python's sort is stable, and the result
    of a stable sort is determined by the input and the keys. *)
Fixpoint stable_sort (l : list A) : list A :=
  match l with
  | [] => []
  | x :: r => insert_by x (stable_sort r)
  end.

(** [sorted(l, key=key, reverse=reverse)].  With [reverse=True] CPython
    reverses the list, sorts it ascending and stably, and reverses the
    result, so that equal keys keep their original order. *)
Definition sorted (reverse : bool) (l : list A) : list A :=
  if reverse then rev (stable_sort (rev l)) else stable_sort l.
End Sorted.

End Py.

(** ** Exceptions ([exceptions.py], and the one pydantic raises) *)

Inductive Exception :=
| ValidationError (message : string)
    (** [app.exceptions.ValidationError], error code VALIDATION_ERROR *)
| TodoNotFoundError (todo_id : Z)
    (** [app.exceptions.TodoNotFoundError], message
        "Todo with ID {todo_id} not found" *)
| PydanticValidationError.
    (** [pydantic.ValidationError], raised by a model constructor whose
        arguments violate the field constraints; it is not a
        [TodoAppException] *)

Inductive result (A : Type) :=
| Return (a : A)
| Raise (e : Exception).
Arguments Return {A} a.
Arguments Raise {A} e.

(** ** Data models ([models.py]) *)

Module models.

(** [Field(..., min_length=1, max_length=500)] on a [str]: to count the
    characters the validator reads the string as UTF-8, so it refuses a
    string that holds a surrogate, and then it checks the two bounds on the
    number of characters. *)
Definition title_ok (s : Py.str) : bool :=
  Py.utf8_encodable s && ((1 <=? Py.len s) && (Py.len s <=? 500)).

Module TodoCreate.
Record t := mk { title : Py.str }.

(** [TodoCreate(title=...)]: the constructor validates. *)
Definition new (title : Py.str) : result t :=
  if title_ok title then Return (mk title)
  else Raise PydanticValidationError.
End TodoCreate.

Module TodoUpdate.
(** Both fields are [Optional[...]] with default [None];
    [model_fields_set] holds the names of the fields that were given
    explicitly (also when given as [None]) or assigned later. *)
Record t := mk {
  completed : option bool;
  title : option Py.str;
  model_fields_set : list string
}.

Definition is_set (name : string) (u : t) : bool :=
  existsb (String.eqb name) (model_fields_set u).

(** [u.title = v]: pydantic's attribute assignment records the field
    as set. *)
Definition assign_title (v : option Py.str) (u : t) : t :=
  mk (completed u) v
     (if is_set "title" u then model_fields_set u
      else "title"%string :: model_fields_set u).

(** The value of [u.model_dump(exclude_unset=True)]: for each field,
    [None] when the key is missing from the dictionary, [Some v] when it
    is there with value [v] (and [v] itself may be Python's [None]). *)
Record dump := mk_dump {
  d_title : option (option Py.str);
  d_completed : option (option bool)
}.

Definition model_dump_exclude_unset (u : t) : dump :=
  {| d_title := if is_set "title" u then Some (title u) else None;
     d_completed :=
       if is_set "completed" u then Some (completed u) else None |}.

(** [dict.get(key, default)] on one entry of the dump. *)
Definition dict_get {A : Type} (entry : option A) (default : A) : A :=
  match entry with Some v => v | None => default end.

(** What the request validation of the route layer accepts: a title
    that is given and not [None] passes [title_ok]. *)
Definition valid (u : t) : bool :=
  match title u with
  | Some s => title_ok s
  | None => true
  end.
End TodoUpdate.

Module Todo.
Record t := mk {
  id : Z;
  title : Py.str;
  completed : bool;
  created_at : Z
}.

(** [Todo(id=..., title=..., completed=..., created_at=...)].  [title]
    and [completed] may arrive as [None]: [title: str] and
    [completed: bool] refuse it, and [title] is under the constraints of
    [TodoBase]. *)
Definition new (id : Z) (title : option Py.str)
    (completed : option bool) (created_at : Z) : result t :=
  match title, completed with
  | Some s, Some b =>
      if title_ok s then Return (mk id s b created_at)
      else Raise PydanticValidationError
  | _, _ => Raise PydanticValidationError
  end.
End Todo.

Record TodoStats := mk_stats {
  total : Z;
  stats_completed : Z;
  pending : Z
}.

Record BulkActionResponse := mk_bulk {
  message : string;
  affected_count : Z
}.

End models.
Import models.

(** ** In-memory storage ([storage.py]) *)

Module storage.

Record InMemoryTodoStorage := mk {
  _todos : Py.dict Todo.t;
  _next_id : Z
}.

(** [InMemoryTodoStorage()] *)
Definition __init__ : InMemoryTodoStorage := mk [] 1.

(** A method: from the state of [self] to a result and the state after. *)
Definition method (A : Type) : Type :=
  InMemoryTodoStorage -> result A * InMemoryTodoStorage.

Definition get_all_todos : method (list Todo.t) := fun self =>
  let todos := Py.values (_todos self) in
  (Return (Py.sorted Todo.created_at true todos), self).

Definition get_todo_by_id (todo_id : Z) : method (option Todo.t) :=
  fun self => (Return (Py.get (_todos self) todo_id), self).

(** [utcnow] is the reading of [datetime.utcnow()] during the call.  The
    counter is advanced before the [Todo] is built. *)
Definition create_todo (todo_data : TodoCreate.t) (utcnow : Z)
    : method Todo.t := fun self =>
  let todo_id := _next_id self in
  let self1 := mk (_todos self) (_next_id self + 1) in
  match Todo.new todo_id (Some (TodoCreate.title todo_data))
                 (Some false) utcnow with
  | Raise e => (Raise e, self1)
  | Return todo =>
      (Return todo, mk (Py.set (_todos self1) todo_id todo) (_next_id self1))
  end.

Definition update_todo (todo_id : Z) (update_data : TodoUpdate.t)
    : method (option Todo.t) := fun self =>
  match Py.get (_todos self) todo_id with
  | None => (Return None, self)
  | Some current_todo =>
      let update_dict := TodoUpdate.model_dump_exclude_unset update_data in
      match Todo.new
              (Todo.id current_todo)
              (TodoUpdate.dict_get (TodoUpdate.d_title update_dict)
                                   (Some (Todo.title current_todo)))
              (TodoUpdate.dict_get (TodoUpdate.d_completed update_dict)
                                   (Some (Todo.completed current_todo)))
              (Todo.created_at current_todo) with
      | Raise e => (Raise e, self)
      | Return updated_todo =>
          (Return (Some updated_todo),
           mk (Py.set (_todos self) todo_id updated_todo) (_next_id self))
      end
  end.

Definition delete_todo (todo_id : Z) : method bool := fun self =>
  if Py.contains (_todos self) todo_id
  then (Return true, mk (Py.del (_todos self) todo_id) (_next_id self))
  else (Return false, self).

(** The [for] loop of [mark_all_complete] over [self._todos.items()].
    The loop only assigns to the key it is visiting, after reading it, so
    the items seen are those of the dictionary at loop entry. *)
Fixpoint mark_loop (items : list (Z * Todo.t)) (todos : Py.dict Todo.t)
    (affected_count : Z) : result Z * Py.dict Todo.t :=
  match items with
  | [] => (Return affected_count, todos)
  | (todo_id, todo) :: rest =>
      if negb (Todo.completed todo) then
        match Todo.new (Todo.id todo) (Some (Todo.title todo))
                       (Some true) (Todo.created_at todo) with
        | Raise e => (Raise e, todos)
        | Return updated_todo =>
            mark_loop rest (Py.set todos todo_id updated_todo)
                      (affected_count + 1)
        end
      else mark_loop rest todos affected_count
  end.

Definition mark_all_complete : method Z := fun self =>
  let (r, todos) := mark_loop (_todos self) (_todos self) 0 in
  (r, mk todos (_next_id self)).

Definition delete_completed_todos : method Z := fun self =>
  let completed_ids :=
    map fst (filter (fun kv => Todo.completed (snd kv)) (_todos self)) in
  (Return (Z.of_nat (List.length completed_ids)),
   mk (fold_left Py.del completed_ids (_todos self)) (_next_id self)).

Definition delete_all_todos : method Z := fun self =>
  (Return (Z.of_nat (List.length (_todos self))), mk [] (_next_id self)).

(** The bind of [method]: an exception ends the computation. *)
Definition bind {A B : Type} (m : method A) (k : A -> method B)
    : method B := fun self =>
  match m self with
  | (Return a, self') => k a self'
  | (Raise e, self') => (Raise e, self')
  end.

Definition ret {A : Type} (a : A) : method A := fun self => (Return a, self).
Definition raise {A : Type} (e : Exception) : method A :=
  fun self => (Raise e, self).

End storage.
Import storage.

Notation "x <- m ;; k" := (storage.bind m (fun x => k))
  (at level 61, m at next level, right associativity).

(** ** Service layer ([services.py]) *)

Module services.

(** [str(n)] for an [int], also inside an f-string.  CPython converts an
    [int] of at most [sys.int_info.default_max_str_digits] decimal digits
    and raises [ValueError] for a longer one.  [str_of_int] renders every
    [int]: it is the conversion below that limit, and the embedding has no
    counterpart of the [ValueError] above it.  The properties in which an
    id passed by the caller ends up in the message of a
    [TodoNotFoundError] therefore take the id below
    [10 ^ int_max_str_digits]. *)
Definition str_of_int (n : Z) : string :=
  DecimalString.NilZero.string_of_int (Z.to_int n).

Definition int_max_str_digits : Z := 4300.

Definition msg_positive_id : string := "Todo ID must be a positive integer".
Definition msg_blank_title : string :=
  "Todo title cannot be empty or only whitespace".
Definition msg_no_field : string :=
  "At least one field must be provided for update".

(** [try: ... except Exception as e: logger.error(...); raise] re-raises
    what it caught, so the wrapped call is the whole behaviour. *)
Definition get_all_todos : method (list Todo.t) := storage.get_all_todos.

Definition get_todo_by_id (todo_id : Z) : method Todo.t :=
  if todo_id <=? 0 then raise (ValidationError msg_positive_id)
  else
    todo <- storage.get_todo_by_id todo_id ;;
    match todo with
    | None => raise (TodoNotFoundError todo_id)
    | Some todo => ret todo
    end.

Definition create_todo (todo_data : TodoCreate.t) (utcnow : Z)
    : method Todo.t :=
  if negb (Py.truthy (Py.strip (TodoCreate.title todo_data)))
  then raise (ValidationError msg_blank_title)
  else
    match TodoCreate.new (Py.strip (TodoCreate.title todo_data)) with
    | Raise e => raise e
    | Return sanitized_data => storage.create_todo sanitized_data utcnow
    end.

Definition is_not_None {A : Type} (field : option A) : bool :=
  match field with Some _ => true | None => false end.

Definition update_todo (todo_id : Z) (update_data : TodoUpdate.t)
    : method Todo.t :=
  if todo_id <=? 0 then raise (ValidationError msg_positive_id)
  else if negb (is_not_None (TodoUpdate.title update_data)
                || is_not_None (TodoUpdate.completed update_data))
  then raise (ValidationError msg_no_field)
  else
    let sanitized :=
      match TodoUpdate.title update_data with
      | Some s =>
          if negb (Py.truthy (Py.strip s))
          then Raise (ValidationError msg_blank_title)
          else Return (TodoUpdate.assign_title (Some (Py.strip s))
                                               update_data)
      | None => Return update_data
      end in
    match sanitized with
    | Raise e => raise e
    | Return update_data =>
        updated_todo <- storage.update_todo todo_id update_data ;;
        match updated_todo with
        | None => raise (TodoNotFoundError todo_id)
        | Some updated_todo => ret updated_todo
        end
    end.

Definition delete_todo (todo_id : Z) : method unit :=
  if todo_id <=? 0 then raise (ValidationError msg_positive_id)
  else
    deleted <- storage.delete_todo todo_id ;;
    if negb deleted then raise (TodoNotFoundError todo_id) else ret tt.

(** [sum(1 for todo in todos if todo.completed)] *)
Definition count_completed (todos : list Todo.t) : Z :=
  fold_left (fun acc todo => if Todo.completed todo then acc + 1 else acc)
            todos 0.

Definition get_todo_stats : method TodoStats :=
  todos <- storage.get_all_todos ;;
  let total := Z.of_nat (List.length todos) in
  let completed := count_completed todos in
  let pending := total - completed in
  ret (mk_stats total completed pending).

Definition mark_all_complete : method BulkActionResponse :=
  affected_count <- storage.mark_all_complete ;;
  ret (mk_bulk
         ("Marked " ++ str_of_int affected_count ++ " todos as complete")
         affected_count).

Definition delete_completed_todos : method BulkActionResponse :=
  deleted_count <- storage.delete_completed_todos ;;
  ret (mk_bulk ("Deleted " ++ str_of_int deleted_count ++ " completed todos")
               deleted_count).

Definition delete_all_todos : method BulkActionResponse :=
  deleted_count <- storage.delete_all_todos ;;
  ret (mk_bulk ("Deleted " ++ str_of_int deleted_count ++ " todos")
               deleted_count).

End services.

(** ** Route layer ([routes.py], mounted by [main.py])

    The router of the web framework is not code of this application; what
    is modelled of it is the part the decorators of [routes.py] rely on:
    routes are tried in the order in which they were registered, a path
    template matches segment by segment with [{name}] standing for one
    non-empty segment, the first route whose path and method both match
    handles the request, and a path parameter annotated [int] that does not
    parse as an integer is answered with 422 before the endpoint runs. *)

Module routes.

Inductive Method := GET | POST | PUT | DELETE.

Definition method_eqb (a b : Method) : bool :=
  match a, b with
  | GET, GET | POST, POST | PUT, PUT | DELETE, DELETE => true
  | _, _ => false
  end.

(** The JSON object of a request body, as far as the two request models
    read it: each key is missing ([None]), [null] ([Some None]) or holds a
    value of the field's type. *)
Record JsonBody := mk_body {
  json_title : option (option Py.str);
  json_completed : option (option bool)
}.

Record Request := mk_request {
  req_method : Method;
  req_path : string;
  req_body : option JsonBody
}.

Inductive Content :=
| NoContent
| TodoJson (todo : Todo.t)
| TodoListJson (todos : list Todo.t)
| StatsJson (stats : TodoStats)
| BulkJson (response : BulkActionResponse)
| HealthJson
| DetailJson (detail : string)
| RequestValidationErrors.

Record Response := mk_response {
  status_code : Z;
  content : Content
}.

Definition HTTPException (status_code : Z) (detail : string) : Response :=
  mk_response status_code (DetailJson detail).

(** [str(e)] for the application's exceptions. *)
Definition str_of_exception (e : Exception) : string :=
  match e with
  | ValidationError message => message
  | TodoNotFoundError todo_id =>
      "Todo with ID " ++ services.str_of_int todo_id ++ " not found"
  | PydanticValidationError => "validation error"
  end.

Definition handler : Type :=
  InMemoryTodoStorage -> Response * InMemoryTodoStorage.

(** The [try]/[except] ladder of an endpoint.  [except_not_found] and
    [except_validation] say whether the endpoint has the clause
    [except TodoNotFoundError] (answered 404) and [except ValidationError]
    (answered 400); the last clause, [except Exception], answers 500 with
    the endpoint's fixed detail. *)
Definition respond {A : Type} (success : A -> Response)
    (except_not_found except_validation : bool) (failed : string)
    (m : method A) : handler := fun self =>
  match m self with
  | (Return a, self') => (success a, self')
  | (Raise e, self') =>
      (match e with
       | TodoNotFoundError _ =>
           if except_not_found then HTTPException 404 (str_of_exception e)
           else HTTPException 500 failed
       | ValidationError _ =>
           if except_validation then HTTPException 400 (str_of_exception e)
           else HTTPException 500 failed
       | PydanticValidationError => HTTPException 500 failed
       end, self')
  end.

Definition get_todos : handler :=
  respond (fun todos => mk_response 200 (TodoListJson todos))
          false false "Failed to retrieve todos" services.get_all_todos.

Definition get_todo (todo_id : Z) : handler :=
  respond (fun todo => mk_response 200 (TodoJson todo))
          true true "Failed to retrieve todo"
          (services.get_todo_by_id todo_id).

Definition create_todo (todo_data : TodoCreate.t) (utcnow : Z) : handler :=
  respond (fun todo => mk_response 201 (TodoJson todo))
          false true "Failed to create todo"
          (services.create_todo todo_data utcnow).

Definition update_todo (todo_id : Z) (update_data : TodoUpdate.t)
    : handler :=
  respond (fun todo => mk_response 200 (TodoJson todo))
          true true "Failed to update todo"
          (services.update_todo todo_id update_data).

Definition delete_todo (todo_id : Z) : handler :=
  respond (fun _ : unit => mk_response 204 NoContent)
          true true "Failed to delete todo" (services.delete_todo todo_id).

Definition get_todo_stats : handler :=
  respond (fun stats => mk_response 200 (StatsJson stats))
          false false "Failed to retrieve todo statistics"
          services.get_todo_stats.

Definition mark_all_complete : handler :=
  respond (fun r => mk_response 200 (BulkJson r))
          false false "Failed to mark todos as complete"
          services.mark_all_complete.

Definition delete_completed_todos : handler :=
  respond (fun r => mk_response 200 (BulkJson r))
          false false "Failed to delete completed todos"
          services.delete_completed_todos.

Definition delete_all_todos : handler :=
  respond (fun r => mk_response 200 (BulkJson r))
          false false "Failed to delete all todos"
          services.delete_all_todos.

Definition health_check : handler := fun self =>
  (mk_response 200 HealthJson, self).

(** *** The route table *)

Inductive Endpoint :=
| E_health_check
| E_get_todos
| E_get_todo
| E_create_todo
| E_update_todo
| E_delete_todo
| E_get_todo_stats
| E_mark_all_complete
| E_delete_completed_todos
| E_delete_all_todos.

Record Route := mk_route {
  route_method : Method;
  route_path : string;
  route_endpoint : Endpoint
}.

(** [APIRouter(prefix="/api")] *)
Definition prefix : string := "/api".

(** The decorators of [routes.py], top to bottom. *)
Definition router : list Route :=
  [ mk_route GET (prefix ++ "/todos") E_get_todos;
    mk_route GET (prefix ++ "/todos/{todo_id}") E_get_todo;
    mk_route POST (prefix ++ "/todos") E_create_todo;
    mk_route PUT (prefix ++ "/todos/{todo_id}") E_update_todo;
    mk_route DELETE (prefix ++ "/todos/{todo_id}") E_delete_todo;
    mk_route GET (prefix ++ "/todos/stats") E_get_todo_stats;
    mk_route POST (prefix ++ "/todos/bulk/mark-complete")
             E_mark_all_complete;
    mk_route DELETE (prefix ++ "/todos/bulk/completed")
             E_delete_completed_todos;
    mk_route DELETE (prefix ++ "/todos/bulk/all") E_delete_all_todos ].

(** [main.py]: the health check is declared on the app, then
    [app.include_router(router)]. *)
Definition app_routes : list Route :=
  mk_route GET "/health" E_health_check :: router.

(** The segments of a path: the pieces between the slashes. *)
Fixpoint split_path (acc : string) (s : string) : list string :=
  match s with
  | EmptyString => [acc]
  | String c r =>
      if Ascii.eqb c "/" then acc :: split_path EmptyString r
      else split_path (acc ++ String c EmptyString) r
  end.

Definition segments (path : string) : list string :=
  split_path EmptyString path.

(** [{name}] in a template: the name between the braces. *)
Definition param_name (segment : string) : option string :=
  match segment with
  | String "{" r =>
      let n := String.length r in
      if String.eqb (substring (n - 1) 1 r) "}"
      then Some (substring 0 (n - 1) r) else None
  | _ => None
  end.

(** Matching a template against a path, collecting the path parameters. *)
Fixpoint match_segments (template path : list string)
    : option (list (string * string)) :=
  match template, path with
  | [], [] => Some []
  | t :: template', p :: path' =>
      match param_name t with
      | Some name =>
          if String.eqb p EmptyString then None
          else option_map (cons (name, p)) (match_segments template' path')
      | None =>
          if String.eqb t p then match_segments template' path' else None
      end
  | _, _ => None
  end.

Definition match_path (template path : string)
    : option (list (string * string)) :=
  match_segments (segments template) (segments path).

Inductive Match :=
| Full (route : Route) (path_params : list (string * string))
| Partial
| NoMatch.

(** The router's loop: the first route matching path and method wins; a
    route matching the path only is remembered. *)
Fixpoint find_route (routes : list Route) (m : Method) (path : string)
    (partial : bool) : Match :=
  match routes with
  | [] => if partial then Partial else NoMatch
  | r :: rest =>
      match match_path (route_path r) path with
      | Some params =>
          if method_eqb (route_method r) m then Full r params
          else find_route rest m path true
      | None => find_route rest m path partial
      end
  end.

(** Decimal literal of an [int] path parameter: an optional sign and
    digits. *)
Definition digit_of (c : ascii) : option Z :=
  let n := Z.of_N (N_of_ascii c) in
  if (48 <=? n) && (n <=? 57) then Some (n - 48) else None.

Fixpoint parse_digits (acc : Z) (s : string) : option Z :=
  match s with
  | EmptyString => Some acc
  | String c r =>
      match digit_of c with
      | Some d => parse_digits (10 * acc + d) r
      | None => None
      end
  end.

Definition parse_int (s : string) : option Z :=
  match s with
  | EmptyString => None
  | String "-" (String _ _ as r) => option_map Z.opp (parse_digits 0 r)
  | String "+" (String _ _ as r) => parse_digits 0 r
  | _ => parse_digits 0 s
  end.

Fixpoint lookup (name : string) (params : list (string * string))
    : option string :=
  match params with
  | [] => None
  | (n, v) :: rest => if String.eqb n name then Some v else lookup name rest
  end.

Definition unprocessable : Response :=
  mk_response 422 RequestValidationErrors.

(** [todo_id: int] taken from the path. *)
Definition with_todo_id (params : list (string * string))
    (k : Z -> handler) : handler := fun self =>
  match lookup "todo_id" params with
  | Some raw =>
      match parse_int raw with
      | Some todo_id => k todo_id self
      | None => (unprocessable, self)
      end
  | None => (unprocessable, self)
  end.

(** [todo_data: TodoCreate] taken from the body. *)
Definition body_TodoCreate (body : option JsonBody)
    : option TodoCreate.t :=
  match body with
  | Some (mk_body (Some (Some title)) _) =>
      match TodoCreate.new title with
      | Return d => Some d
      | Raise _ => None
      end
  | _ => None
  end.

(** [update_data: TodoUpdate] taken from the body. *)
Definition body_TodoUpdate (body : option JsonBody)
    : option TodoUpdate.t :=
  match body with
  | Some (mk_body title completed) =>
      let u :=
        TodoUpdate.mk
          (TodoUpdate.dict_get completed None)
          (TodoUpdate.dict_get title None)
          ((match completed with Some _ => ["completed"%string] | None => [] end)
           ++ (match title with Some _ => ["title"%string] | None => [] end)) in
      if TodoUpdate.valid u then Some u else None
  | None => None
  end.

Definition call (e : Endpoint) (params : list (string * string))
    (body : option JsonBody) (utcnow : Z) : handler :=
  match e with
  | E_health_check => health_check
  | E_get_todos => get_todos
  | E_get_todo => with_todo_id params get_todo
  | E_create_todo =>
      match body_TodoCreate body with
      | Some todo_data => create_todo todo_data utcnow
      | None => fun self => (unprocessable, self)
      end
  | E_update_todo =>
      with_todo_id params (fun todo_id =>
        match body_TodoUpdate body with
        | Some update_data => update_todo todo_id update_data
        | None => fun self => (unprocessable, self)
        end)
  | E_delete_todo => with_todo_id params delete_todo
  | E_get_todo_stats => get_todo_stats
  | E_mark_all_complete => mark_all_complete
  | E_delete_completed_todos => delete_completed_todos
  | E_delete_all_todos => delete_all_todos
  end.

(** One request against the application; [utcnow] is the clock reading
    an endpoint would take. *)
Definition app (request : Request) (utcnow : Z) : handler :=
  match find_route app_routes (req_method request) (req_path request)
                   false with
  | Full route params =>
      call (route_endpoint route) params (req_body request) utcnow
  | Partial => fun self => (HTTPException 405 "Method Not Allowed", self)
  | NoMatch => fun self => (HTTPException 404 "Not Found", self)
  end.

End routes.

(** ** Histories of one storage instance *)

(** The calls that can change an [InMemoryTodoStorage]. *)
Inductive Call :=
| Call_create_todo (todo_data : TodoCreate.t) (utcnow : Z)
| Call_update_todo (todo_id : Z) (update_data : TodoUpdate.t)
| Call_delete_todo (todo_id : Z)
| Call_mark_all_complete
| Call_delete_completed_todos
| Call_delete_all_todos.

(** The state a call leaves behind, whether it returned or raised. *)
Definition after (c : Call) (self : InMemoryTodoStorage)
    : InMemoryTodoStorage :=
  match c with
  | Call_create_todo todo_data utcnow =>
      snd (storage.create_todo todo_data utcnow self)
  | Call_update_todo todo_id update_data =>
      snd (storage.update_todo todo_id update_data self)
  | Call_delete_todo todo_id => snd (storage.delete_todo todo_id self)
  | Call_mark_all_complete => snd (storage.mark_all_complete self)
  | Call_delete_completed_todos => snd (storage.delete_completed_todos self)
  | Call_delete_all_todos => snd (storage.delete_all_todos self)
  end.

(** The id a call hands out: that of the [Todo] a [create_todo] returns. *)
Definition issued (c : Call) (self : InMemoryTodoStorage) : list Z :=
  match c with
  | Call_create_todo todo_data utcnow =>
      match fst (storage.create_todo todo_data utcnow self) with
      | Return todo => [Todo.id todo]
      | Raise _ => []
      end
  | _ => []
  end.

Fixpoint run (calls : list Call) (self : InMemoryTodoStorage)
    : InMemoryTodoStorage :=
  match calls with
  | [] => self
  | c :: rest => run rest (after c self)
  end.

(** All ids handed out along a history, oldest first. *)
Fixpoint issued_ids (calls : list Call) (self : InMemoryTodoStorage)
    : list Z :=
  match calls with
  | [] => []
  | c :: rest => issued c self ++ issued_ids rest (after c self)
  end.

(** The states a storage instance can be in: the fresh one and whatever a
    call makes of a reachable one. *)
Inductive reachable : InMemoryTodoStorage -> Prop :=
| reachable_init : reachable storage.__init__
| reachable_call (c : Call) (self : InMemoryTodoStorage) :
    reachable self -> reachable (after c self).

(** The representation invariant of reachable states. *)
Definition entry_ok (kv : Z * Todo.t) : Prop :=
  Todo.id (snd kv) = fst kv /\ title_ok (Todo.title (snd kv)) = true.

Record wf (self : InMemoryTodoStorage) : Prop := mk_wf {
  wf_sorted : StronglySorted Z.lt (Py.keys (_todos self));
  wf_bound : Forall (fun k => 0 < k < _next_id self) (Py.keys (_todos self));
  wf_entries : Forall entry_ok (_todos self);
  wf_next : 0 < _next_id self
}.

(** ** Vocabulary of the properties *)

(** What a stable ascending sort by [key] achieves on a list whose elements
    stood in the order [before]: ascending in the key, and in the input
    order where the keys agree. *)
Definition stable_order {A : Type} (key : A -> Z) (before : A -> A -> Prop)
    (a b : A) : Prop :=
  key a < key b \/ (key a = key b /\ before a b).

(** Newest first, and among equal timestamps the smaller id first. *)
Definition newest_first (a b : Todo.t) : Prop :=
  Todo.created_at b < Todo.created_at a
  \/ (Todo.created_at a = Todo.created_at b /\ Todo.id a < Todo.id b).

(** A todo with its flag raised and nothing else touched. *)
Definition completed_version (todo : Todo.t) : Todo.t :=
  if Todo.completed todo then todo
  else Todo.mk (Todo.id todo) (Todo.title todo) true (Todo.created_at todo).

(** An entry of the store after [mark_all_complete]. *)
Definition mark_entry (kv : Z * Todo.t) : Z * Todo.t :=
  (fst kv, completed_version (snd kv)).

Definition incomplete (todo : Todo.t) : bool := negb (Todo.completed todo).

(** The number of todos of a store that are not completed. *)
Definition count_incomplete (d : Py.dict Todo.t) : Z :=
  Z.of_nat (List.length (filter incomplete (Py.values d))).

(** A patch every explicitly set field of which carries a value the [Todo]
    model accepts: a set title is a string of 1 to 500 characters, none of
    them a surrogate, a set flag is a boolean. *)
Definition storable (u : TodoUpdate.t) : bool :=
  (if TodoUpdate.is_set "title" u then
     match TodoUpdate.title u with
     | Some s => title_ok s
     | None => false
     end
   else true)
  && (if TodoUpdate.is_set "completed" u then
        match TodoUpdate.completed u with Some _ => true | None => false end
      else true).

(** The todo a patch turns [current] into: set fields from the patch, the
    others from [current]. *)
Definition patched (u : TodoUpdate.t) (current : Todo.t) : Todo.t :=
  Todo.mk (Todo.id current)
    (match TodoUpdate.is_set "title" u, TodoUpdate.title u with
     | true, Some s => s
     | _, _ => Todo.title current
     end)
    (match TodoUpdate.is_set "completed" u, TodoUpdate.completed u with
     | true, Some b => b
     | _, _ => Todo.completed current
     end)
    (Todo.created_at current).

(** Sample data of the examples. *)
Definition title_buy_milk : Py.str :=
  [66; 117; 121; 32; 109; 105; 108; 107]%N.
Definition title_walk_dog : Py.str :=
  [87; 97; 108; 107; 32; 100; 111; 103]%N.

Definition store_two : InMemoryTodoStorage :=
  run [ Call_create_todo (TodoCreate.mk title_buy_milk) 1000;
        Call_update_todo 1 (TodoUpdate.mk (Some true) None ["completed"%string]);
        Call_create_todo (TodoCreate.mk title_walk_dog) 1000 ]
      storage.__init__.

(** A title of 501 letters. *)
Definition title_501 : Py.str := repeat 97%N 501.

(** The title of the letter a followed by the lone surrogate U+D800. *)
Definition title_surrogate : Py.str := [97; 55296]%N.

(** The patch of the JSON body [{"title": null, "completed": true}]. *)
Definition patch_null_title : TodoUpdate.t :=
  TodoUpdate.mk (Some true) None ["completed"%string; "title"%string].

Definition request_stats : routes.Request :=
  routes.mk_request routes.GET "/api/todos/stats" None.

(** ** Histories of the service *)

(** The calls of [TodoService] that can change the storage behind it. *)
Inductive ServiceCall :=
| Service_create_todo (todo_data : TodoCreate.t) (utcnow : Z)
| Service_update_todo (todo_id : Z) (update_data : TodoUpdate.t)
| Service_delete_todo (todo_id : Z)
| Service_mark_all_complete
| Service_delete_completed_todos
| Service_delete_all_todos.

Definition service_after (c : ServiceCall) (self : InMemoryTodoStorage)
    : InMemoryTodoStorage :=
  match c with
  | Service_create_todo todo_data utcnow =>
      snd (services.create_todo todo_data utcnow self)
  | Service_update_todo todo_id update_data =>
      snd (services.update_todo todo_id update_data self)
  | Service_delete_todo todo_id => snd (services.delete_todo todo_id self)
  | Service_mark_all_complete => snd (services.mark_all_complete self)
  | Service_delete_completed_todos =>
      snd (services.delete_completed_todos self)
  | Service_delete_all_todos => snd (services.delete_all_todos self)
  end.

(** The states of a storage that only a [TodoService] has called. *)
Inductive service_reachable : InMemoryTodoStorage -> Prop :=
| service_reachable_init : service_reachable storage.__init__
| service_reachable_call (c : ServiceCall) (self : InMemoryTodoStorage) :
    service_reachable self -> service_reachable (service_after c self).

Fixpoint service_run (calls : list ServiceCall) (self : InMemoryTodoStorage)
    : InMemoryTodoStorage :=
  match calls with
  | [] => self
  | c :: rest => service_run rest (service_after c self)
  end.

(** A title as the service stores it: already stripped and not empty. *)
Definition clean_title (s : Py.str) : Prop :=
  Py.strip s = s /\ s <> [].

(** An entry of the store with such a title. *)
Definition clean_entry (kv : Z * Todo.t) : Prop :=
  clean_title (Todo.title (snd kv)).

(** The entries of a dictionary that are not completed, in their order. *)
Definition incomplete_entries (d : Py.dict Todo.t) : Py.dict Todo.t :=
  filter (fun kv => negb (Todo.completed (snd kv))) d.

(** The number of completed todos of a store. *)
Definition count_complete (d : Py.dict Todo.t) : Z :=
  Z.of_nat (List.length (filter (fun kv => Todo.completed (snd kv)) d)).

(** The store of the examples as a service builds it. *)
Definition service_store_two : InMemoryTodoStorage :=
  service_run
    [ Service_create_todo (TodoCreate.mk title_buy_milk) 1000;
      Service_update_todo 1
        (TodoUpdate.mk (Some true) None ["completed"%string]);
      Service_create_todo (TodoCreate.mk title_walk_dog) 1000 ]
    storage.__init__.

(** The store of the specification's scenario, with clock readings that
    differ. *)
Definition store_scenario : InMemoryTodoStorage :=
  run [ Call_create_todo (TodoCreate.mk title_buy_milk) 1000;
        Call_update_todo 1 (TodoUpdate.mk (Some true) None ["completed"%string]);
        Call_create_todo (TodoCreate.mk title_walk_dog) 2000 ]
      storage.__init__.

(** * Properties *)

(** ** Facts about the dictionary *)

Section DictFacts.
Context {V : Type}.
Implicit Types (d : Py.dict V) (k : Z) (v : V).

Lemma get_set_same d k v : Py.get (Py.set d k v) k = Some v.
Proof.
  induction d as [|[k' v'] d IH]; simpl.
  - now rewrite Z.eqb_refl.
  - destruct (k' =? k) eqn:E; simpl.
    + now rewrite Z.eqb_refl.
    + now rewrite E.
Qed.

Lemma get_set_other d k k' v :
  k' <> k -> Py.get (Py.set d k v) k' = Py.get d k'.
Proof.
  intros Hne. induction d as [|[k0 v0] d IH]; simpl.
  - destruct (k =? k') eqn:E; [apply Z.eqb_eq in E; congruence | reflexivity].
  - destruct (k0 =? k) eqn:E; simpl.
    + apply Z.eqb_eq in E. subst k0.
      destruct (k =? k') eqn:E'; [apply Z.eqb_eq in E'; congruence | reflexivity].
    + destruct (k0 =? k'); [reflexivity | exact IH].
Qed.

Lemma get_del_same d k : Py.get (Py.del d k) k = None.
Proof.
  induction d as [|[k' v'] d IH]; simpl; [reflexivity|].
  destruct (k' =? k) eqn:E; simpl; [exact IH | now rewrite E].
Qed.

Lemma get_del_other d k k' :
  k' <> k -> Py.get (Py.del d k) k' = Py.get d k'.
Proof.
  intros Hne. induction d as [|[k0 v0] d IH]; simpl; [reflexivity|].
  destruct (k0 =? k) eqn:E; simpl.
  - apply Z.eqb_eq in E. subst k0.
    destruct (k =? k') eqn:E'; [apply Z.eqb_eq in E'; congruence | exact IH].
  - destruct (k0 =? k'); [reflexivity | exact IH].
Qed.

Lemma get_None_not_key d k : Py.get d k = None <-> ~ In k (Py.keys d).
Proof.
  induction d as [|[k' v'] d IH]; simpl.
  - tauto.
  - destruct (k' =? k) eqn:E.
    + apply Z.eqb_eq in E. split; [discriminate | intros H; exfalso; apply H; now left].
    + apply Z.eqb_neq in E. rewrite IH. tauto.
Qed.

Lemma get_Some_In d k v : Py.get d k = Some v -> In (k, v) d.
Proof.
  induction d as [|[k' v'] d IH]; simpl; [discriminate|].
  destruct (k' =? k) eqn:E.
  - apply Z.eqb_eq in E. intros [= ->]. subst. now left.
  - intros H. right. now apply IH.
Qed.

Lemma del_absent d k : Py.get d k = None -> Py.del d k = d.
Proof.
  induction d as [|[k' v'] d IH]; simpl; [reflexivity|].
  destruct (k' =? k); [discriminate | intros H; now rewrite IH].
Qed.

Lemma keys_set_present d k v :
  In k (Py.keys d) -> Py.keys (Py.set d k v) = Py.keys d.
Proof.
  induction d as [|[k' v'] d IH]; simpl; [tauto|].
  intros Hin. destruct (k' =? k) eqn:E; simpl.
  - apply Z.eqb_eq in E. now subst.
  - apply Z.eqb_neq in E. f_equal. apply IH. tauto.
Qed.

Lemma set_absent d k v :
  ~ In k (Py.keys d) -> Py.set d k v = d ++ [(k, v)].
Proof.
  induction d as [|[k' v'] d IH]; simpl; [reflexivity|].
  intros Hnin. destruct (k' =? k) eqn:E.
  - apply Z.eqb_eq in E. tauto.
  - rewrite IH; tauto.
Qed.

(** Assigning to the key of the entry in the middle of a dictionary
    replaces that entry and nothing else. *)
Lemma set_middle (pre post : Py.dict V) k v v' :
  ~ In k (Py.keys pre) ->
  Py.set (pre ++ (k, v) :: post) k v' = pre ++ (k, v') :: post.
Proof.
  induction pre as [|[k0 v0] pre IH]; simpl.
  - now rewrite Z.eqb_refl.
  - intros Hnin. destruct (k0 =? k) eqn:E.
    + apply Z.eqb_eq in E. tauto.
    + rewrite IH; tauto.
Qed.

Lemma Forall_set (P : Z * V -> Prop) d k v :
  Forall P d -> P (k, v) -> Forall P (Py.set d k v).
Proof.
  intros Hd Hkv. induction Hd as [|[k' v'] d Hx Hd IH]; simpl.
  - now constructor.
  - destruct (k' =? k); constructor; assumption.
Qed.

Lemma In_del d k kv : In kv (Py.del d k) -> In kv d.
Proof.
  induction d as [|[k' v'] d IH]; simpl; [tauto|].
  destruct (k' =? k); simpl; intuition.
Qed.

Lemma Forall_del (P : Z * V -> Prop) d k :
  Forall P d -> Forall P (Py.del d k).
Proof.
  rewrite !Forall_forall. intros H kv Hin. apply H. eapply In_del, Hin.
Qed.

Lemma keys_del d k :
  Py.keys (Py.del d k) = filter (fun k' => negb (k' =? k)) (Py.keys d).
Proof.
  induction d as [|[k' v'] d IH]; simpl; [reflexivity|].
  destruct (k' =? k); simpl; now rewrite IH.
Qed.
End DictFacts.

(** ** Facts about sorting *)

Section OrderFacts.
Context {A : Type}.

Lemma StronglySorted_impl (R S : A -> A -> Prop) (l : list A) :
  (forall a b, R a b -> S a b) -> StronglySorted R l -> StronglySorted S l.
Proof.
  intros HRS H. induction H as [|a l Hl IH Ha]; constructor; auto.
  eapply Forall_impl; [|exact Ha]. auto.
Qed.

Lemma StronglySorted_snoc (R : A -> A -> Prop) (l : list A) (x : A) :
  StronglySorted R l -> Forall (fun y => R y x) l ->
  StronglySorted R (l ++ [x]).
Proof.
  intros H. induction H as [|a l Hl IH Ha]; simpl; intros HF.
  - repeat constructor.
  - inversion HF; subst. constructor; [auto|].
    apply Forall_app; split; [assumption | now constructor].
Qed.

Lemma StronglySorted_rev (R : A -> A -> Prop) (l : list A) :
  StronglySorted R l -> StronglySorted (fun a b => R b a) (rev l).
Proof.
  intros H. induction H as [|a l Hl IH Ha]; simpl.
  - constructor.
  - apply StronglySorted_snoc; [exact IH|].
    apply Forall_rev. exact Ha.
Qed.

Lemma StronglySorted_filter (R : A -> A -> Prop) (f : A -> bool) l :
  StronglySorted R l -> StronglySorted R (filter f l).
Proof.
  intros H. induction H as [|a l Hl IH Ha]; simpl; [constructor|].
  destruct (f a); [|exact IH].
  constructor; [exact IH|].
  rewrite Forall_forall in *. intros x Hx. apply Ha.
  now apply filter_In in Hx.
Qed.

Lemma StronglySorted_map {B : Type} (f : B -> A) (R : A -> A -> Prop) l :
  StronglySorted R (map f l) <->
  StronglySorted (fun a b => R (f a) (f b)) l.
Proof.
  induction l as [|b l IH]; simpl.
  - split; constructor.
  - split; intros H; inversion H; subst; constructor;
      try (apply IH; assumption).
    + rewrite Forall_map in *. assumption.
    + rewrite Forall_map. assumption.
Qed.
End OrderFacts.

Section SortFacts.
Context {A : Type} (key : A -> Z).

(** [before] is the order the elements had in the input. *)
Variable before : A -> A -> Prop.


Lemma insert_by_perm x l : Permutation (x :: l) (Py.insert_by key x l).
Proof.
  induction l as [|y l IH]; simpl; [reflexivity|].
  destruct (key x <=? key y); [reflexivity|].
  rewrite perm_swap. now constructor.
Qed.

Lemma stable_sort_perm l : Permutation l (Py.stable_sort key l).
Proof.
  induction l as [|x l IH]; simpl; [reflexivity|].
  rewrite <- insert_by_perm. now constructor.
Qed.

Lemma insert_by_sorted x l :
  Forall (before x) l -> StronglySorted (stable_order key before) l ->
  StronglySorted (stable_order key before) (Py.insert_by key x l).
Proof.
  intros Hx Hs. induction Hs as [|y l Hl IH Hy]; simpl.
  - repeat constructor.
  - inversion Hx as [|? ? Hxy Hxl]; subst.
    destruct (key x <=? key y) eqn:E.
    + apply Z.leb_le in E. constructor; [now constructor|].
      constructor.
      * unfold stable_order. destruct (Z.eq_dec (key x) (key y)); [right | left]; auto; lia.
      * rewrite Forall_forall in *. intros z Hz.
        specialize (Hy z Hz). specialize (Hxl z Hz).
        unfold stable_order in *.
        destruct (Z.eq_dec (key x) (key z)); [right; auto | left; lia].
    + apply Z.leb_gt in E. constructor; [auto|].
      eapply Permutation_Forall; [apply insert_by_perm|].
      constructor; [left; exact E | exact Hy].
Qed.

Lemma stable_sort_sorted l :
  StronglySorted before l ->
  StronglySorted (stable_order key before) (Py.stable_sort key l).
Proof.
  intros H. induction H as [|x l Hl IH Hx]; simpl; [constructor|].
  apply insert_by_sorted; [|exact IH].
  eapply Permutation_Forall; [apply stable_sort_perm | exact Hx].
Qed.
End SortFacts.

(** ** The representation invariant *)

Lemma Todo_new_Return id s b created_at :
  title_ok s = true ->
  Todo.new id (Some s) (Some b) created_at
  = Return (Todo.mk id s b created_at).
Proof. intros H. unfold Todo.new. now rewrite H. Qed.

Lemma Todo_new_inv id title completed created_at todo :
  Todo.new id title completed created_at = Return todo ->
  exists s b, title = Some s /\ completed = Some b
              /\ title_ok s = true
              /\ todo = Todo.mk id s b created_at.
Proof.
  unfold Todo.new. destruct title as [s|]; [|discriminate].
  destruct completed as [b|]; [|discriminate].
  destruct (title_ok s) eqn:E; [|discriminate].
  intros [= <-]. now exists s, b.
Qed.

Lemma title_ok_bounds s :
  title_ok s = true ->
  1 <= Py.len s <= 500 /\ Py.utf8_encodable s = true.
Proof.
  unfold title_ok. intros H.
  apply andb_prop in H. destruct H as [Hu Hl].
  apply andb_prop in Hl. destruct Hl as [H1 H2].
  apply Z.leb_le in H1, H2. auto.
Qed.

Lemma wf_key_bound self k :
  wf self -> In k (Py.keys (_todos self)) -> 0 < k < _next_id self.
Proof.
  intros [_ Hb _ _] Hin. rewrite Forall_forall in Hb. now apply Hb.
Qed.

Lemma wf_next_id_fresh self :
  wf self -> ~ In (_next_id self) (Py.keys (_todos self)).
Proof. intros Hwf Hin. apply (wf_key_bound _ _ Hwf) in Hin. lia. Qed.

Lemma wf_get self k todo :
  wf self -> Py.get (_todos self) k = Some todo ->
  Todo.id todo = k /\ title_ok (Todo.title todo) = true /\ 0 < k.
Proof.
  intros Hwf Hget. pose proof (get_Some_In _ _ _ Hget) as Hin.
  destruct Hwf as [_ Hb He _]. rewrite Forall_forall in He, Hb.
  destruct (He _ Hin) as [Hid Hlen]. simpl in *.
  repeat split; try assumption.
  apply (Hb k). unfold Py.keys. change k with (fst (k, todo)). now apply in_map.
Qed.

Lemma keys_NoDup (d : Py.dict Todo.t) :
  StronglySorted Z.lt (Py.keys d) -> NoDup (Py.keys d).
Proof.
  intros H. induction H as [|k l Hl IH Hk]; constructor; [|exact IH].
  intros Hin. rewrite Forall_forall in Hk. specialize (Hk _ Hin). lia.
Qed.

Lemma wf_init : wf storage.__init__.
Proof. constructor; simpl; try constructor. Qed.

Lemma wf_create todo_data utcnow self :
  wf self -> wf (snd (storage.create_todo todo_data utcnow self)).
Proof.
  intros Hwf. pose proof (wf_next_id_fresh _ Hwf) as Hfresh.
  destruct Hwf as [Hs Hb He Hn]. unfold storage.create_todo.
  destruct (Todo.new _ _ _ _) as [todo|e] eqn:E; simpl.
  - apply Todo_new_inv in E. destruct E as (s & b & [= <-] & [= <-] & Hlen & ->).
    rewrite set_absent by exact Hfresh.
    constructor; simpl.
    + unfold Py.keys. rewrite map_app. simpl. apply StronglySorted_snoc; [exact Hs|].
      eapply Forall_impl; [|exact Hb]. simpl. intros; lia.
    + unfold Py.keys. rewrite map_app. apply Forall_app; split.
      * eapply Forall_impl; [|exact Hb]. simpl. intros; lia.
      * repeat constructor; simpl; lia.
    + apply Forall_app; split; [exact He|]. repeat constructor. exact Hlen.
    + lia.
  - constructor; simpl; try assumption; [|lia].
    eapply Forall_impl; [|exact Hb]. simpl. intros; lia.
Qed.

Lemma wf_update todo_id update_data self :
  wf self -> wf (snd (storage.update_todo todo_id update_data self)).
Proof.
  intros Hwf. unfold storage.update_todo.
  destruct (Py.get (_todos self) todo_id) as [current|] eqn:G; [|exact Hwf].
  destruct (Todo.new _ _ _ _) as [todo|e] eqn:E; [|exact Hwf]. simpl.
  destruct (wf_get _ _ _ Hwf G) as (Hid & _ & _).
  apply Todo_new_inv in E. destruct E as (s & b & _ & _ & Hlen & ->).
  destruct Hwf as [Hs Hb He Hn].
  assert (Hin : In todo_id (Py.keys (_todos self))).
  { destruct (in_dec Z.eq_dec todo_id (Py.keys (_todos self))) as [H|H]; [exact H|].
    apply get_None_not_key in H. congruence. }
  constructor; simpl; try (rewrite keys_set_present by exact Hin); try assumption.
  apply Forall_set; [exact He|]. split; simpl; assumption.
Qed.

Lemma wf_del k self :
  wf self -> wf (storage.mk (Py.del (_todos self) k) (_next_id self)).
Proof.
  intros [Hs Hb He Hn]. constructor; simpl; try assumption.
  - rewrite keys_del. now apply StronglySorted_filter.
  - rewrite keys_del. rewrite Forall_forall in *. intros x Hx.
    apply filter_In in Hx. now apply Hb.
  - now apply Forall_del.
Qed.

Lemma wf_delete todo_id self :
  wf self -> wf (snd (storage.delete_todo todo_id self)).
Proof.
  intros Hwf. unfold storage.delete_todo.
  destruct (Py.contains _ _); simpl; [now apply wf_del | exact Hwf].
Qed.

Lemma wf_delete_completed self :
  wf self -> wf (snd (storage.delete_completed_todos self)).
Proof.
  intros Hwf. unfold storage.delete_completed_todos. simpl.
  generalize (map fst (filter (fun kv => Todo.completed (snd kv)) (_todos self))).
  intros ids. destruct self as [d n]. simpl. revert d Hwf.
  induction ids as [|k ids IH]; simpl; intros d Hwf; [exact Hwf|].
  apply IH. exact (wf_del k _ Hwf).
Qed.

Lemma wf_delete_all self :
  wf self -> wf (snd (storage.delete_all_todos self)).
Proof. intros [_ _ _ Hn]. constructor; simpl; try constructor; exact Hn. Qed.

(** *** The loop of [mark_all_complete] *)

Lemma keys_mark_entries (d : Py.dict Todo.t) :
  Py.keys (map mark_entry d) = Py.keys d.
Proof. unfold Py.keys. rewrite map_map. reflexivity. Qed.

Lemma mark_loop_spec (items pre : Py.dict Todo.t) (count : Z) :
  NoDup (Py.keys (pre ++ items)) ->
  Forall entry_ok items ->
  storage.mark_loop items (pre ++ items) count
  = (Return (count + count_incomplete items), pre ++ map mark_entry items).
Proof.
  revert pre count. induction items as [|[k todo] items IH]; intros pre count Hnd Hok.
  - simpl. unfold count_incomplete. simpl. now rewrite Z.add_0_r.
  - inversion Hok as [|? ? [Hid Hlen] Hok']; subst. simpl in Hid, Hlen.
    assert (Hpre : ~ In k (Py.keys pre)).
    { unfold Py.keys in *. rewrite map_app in Hnd. simpl in Hnd.
      apply NoDup_remove_2 in Hnd. intros H. apply Hnd. apply in_or_app. now left. }
    cbn [storage.mark_loop map app]. unfold mark_entry at 1, completed_version.
    cbn [fst snd]. unfold count_incomplete, Py.values. cbn [map filter snd].
    unfold incomplete at 1.
    destruct (Todo.completed todo) eqn:C; cbn [negb].
    + specialize (IH (pre ++ [(k, todo)]) count).
      rewrite <- !app_assoc in IH. cbn [app] in IH.
      rewrite IH; [reflexivity | exact Hnd | exact Hok'].
    + rewrite Todo_new_Return by exact Hlen.
      rewrite set_middle by exact Hpre.
      specialize (IH (pre ++ [(k, Todo.mk (Todo.id todo) (Todo.title todo) true
                                        (Todo.created_at todo))]) (count + 1)).
      rewrite <- !app_assoc in IH. cbn [app] in IH. rewrite IH.
      * f_equal. f_equal. unfold count_incomplete, Py.values. cbn [List.length]. lia.
      * unfold Py.keys in *. rewrite map_app in *. exact Hnd.
      * exact Hok'.
Qed.

Lemma mark_all_complete_spec self :
  wf self ->
  storage.mark_all_complete self
  = (Return (count_incomplete (_todos self)),
     storage.mk (map mark_entry (_todos self)) (_next_id self)).
Proof.
  intros [Hs _ He _]. unfold storage.mark_all_complete.
  pose proof (mark_loop_spec (_todos self) [] 0) as H. cbn [app] in H.
  rewrite H; [reflexivity | now apply keys_NoDup | exact He].
Qed.

Lemma wf_mark_all_complete self :
  wf self -> wf (snd (storage.mark_all_complete self)).
Proof.
  intros Hwf. rewrite mark_all_complete_spec by exact Hwf. simpl.
  destruct Hwf as [Hs Hb He Hn].
  constructor; simpl; try rewrite keys_mark_entries; try assumption.
  apply Forall_map. eapply Forall_impl; [|exact He].
  intros [k todo] [Hid Hlen]. unfold entry_ok, mark_entry, completed_version in *.
  simpl in *. destruct (Todo.completed todo); simpl; auto.
Qed.

Lemma wf_after c self : wf self -> wf (after c self).
Proof.
  destruct c; simpl.
  - apply wf_create.
  - apply wf_update.
  - apply wf_delete.
  - apply wf_mark_all_complete.
  - apply wf_delete_completed.
  - apply wf_delete_all.
Qed.

Lemma reachable_wf self : reachable self -> wf self.
Proof.
  induction 1 as [|c self _ IH]; [exact wf_init | now apply wf_after].
Qed.

Lemma reachable_run calls self : reachable self -> reachable (run calls self).
Proof.
  revert self. induction calls as [|c calls IH]; intros self H; simpl.
  - exact H.
  - apply IH. now apply reachable_call.
Defined.

Lemma reachable_store_two : reachable store_two.
Proof. apply reachable_run. exact reachable_init. Defined.

(** ** Listing *)

Lemma values_sorted_by_id self :
  wf self ->
  StronglySorted (fun a b => Todo.id a < Todo.id b) (Py.values (_todos self)).
Proof.
  destruct self as [d n]. intros [Hs _ He _]. cbn [_todos] in *.
  unfold Py.values. apply StronglySorted_map.
  unfold Py.keys in Hs. apply (proj1 (StronglySorted_map fst Z.lt d)) in Hs.
  rewrite Forall_forall in He.
  assert (Hall : Forall (fun kv => Todo.id (snd kv) = fst kv) d).
  { apply Forall_forall. intros kv Hin. now apply He. }
  clear He. induction Hs as [|kv l Hl IH Hkv]; [constructor|].
  inversion Hall as [|? ? Hid Hall']; subst.
  constructor; [now apply IH|].
  rewrite Forall_forall in *. intros kv' Hin.
  rewrite Hid, (Hall' kv' Hin). now apply Hkv.
Qed.

Lemma sorted_reverse_perm {A : Type} (key : A -> Z) (l : list A) :
  Permutation l (Py.sorted key true l).
Proof.
  unfold Py.sorted. rewrite <- Permutation_rev.
  rewrite <- stable_sort_perm. apply Permutation_rev.
Qed.

(** C2: in every reachable state [get_all_todos] returns, without changing
    the store, a list that holds exactly the stored todos, ordered by
    [created_at] descending, with todos of equal [created_at] in increasing
    id, which is their insertion order; on a store without todos it returns
    the empty list. *)
Theorem get_all_todos_newest_first (self : InMemoryTodoStorage)
    (Hreach : reachable self) :
  (exists todos,
      storage.get_all_todos self = (Return todos, self)
      /\ Permutation (Py.values (_todos self)) todos
      /\ StronglySorted newest_first todos)
  /\ (forall next_id,
         storage.get_all_todos (storage.mk [] next_id)
         = (Return [], storage.mk [] next_id)).
Proof.
  split; [|reflexivity].
  eexists. split; [reflexivity|]. split; [apply sorted_reverse_perm|].
  pose proof (values_sorted_by_id _ (reachable_wf _ Hreach)) as Hid.
  unfold Py.sorted.
  apply StronglySorted_rev in Hid.
  apply (stable_sort_sorted Todo.created_at) in Hid.
  apply StronglySorted_rev in Hid.
  eapply StronglySorted_impl; [|exact Hid].
  unfold stable_order, newest_first. intros a b [H|[H1 H2]]; [left | right]; auto.
Qed.

Lemma get_all_todos_newest_first_witness :
  exists todos,
    storage.get_all_todos store_two = (Return todos, store_two)
    /\ Permutation (Py.values (_todos store_two)) todos
    /\ StronglySorted newest_first todos.
Proof.
  exact (proj1 (get_all_todos_newest_first store_two reachable_store_two)).
Defined.

(** ** Id allocation *)

Lemma next_id_after_le c self : _next_id self <= _next_id (after c self).
Proof.
  destruct c; simpl.
  - unfold storage.create_todo. destruct (Todo.new _ _ _ _); simpl; lia.
  - unfold storage.update_todo. destruct (Py.get _ _); simpl; [|lia].
    destruct (Todo.new _ _ _ _); simpl; lia.
  - unfold storage.delete_todo. destruct (Py.contains _ _); simpl; lia.
  - unfold storage.mark_all_complete. destruct (storage.mark_loop _ _ _); simpl; lia.
  - simpl; lia.
  - simpl; lia.
Qed.

Lemma next_id_run_le calls self : _next_id self <= _next_id (run calls self).
Proof.
  revert self. induction calls as [|c calls IH]; intros self; simpl; [lia|].
  etransitivity; [apply (next_id_after_le c) | apply IH].
Qed.

Lemma create_todo_counter todo_data utcnow self :
  _next_id (snd (storage.create_todo todo_data utcnow self))
  = _next_id self + 1.
Proof. unfold storage.create_todo. now destruct (Todo.new _ _ _ _). Qed.

Lemma issued_cases c self :
  issued c self = []
  \/ (issued c self = [_next_id self]
      /\ _next_id (after c self) = _next_id self + 1).
Proof.
  destruct c; simpl; auto.
  destruct (fst (storage.create_todo todo_data utcnow self)) as [todo|e] eqn:E; auto.
  right. split; [|apply create_todo_counter].
  unfold storage.create_todo in E.
  destruct (Todo.new _ _ _ _) as [todo'|e] eqn:N; simpl in E; [|discriminate].
  injection E as <-. apply Todo_new_inv in N.
  destruct N as (s & b & _ & _ & _ & ->). reflexivity.
Qed.

Lemma issued_ids_increasing calls self :
  StronglySorted Z.lt (issued_ids calls self)
  /\ Forall (fun i => _next_id self <= i) (issued_ids calls self).
Proof.
  revert self. induction calls as [|c calls IH]; intros self; simpl.
  - split; constructor.
  - destruct (IH (after c self)) as [Hs Hb].
    pose proof (next_id_after_le c self) as Hle.
    destruct (issued_cases c self) as [-> | [-> Hnext]]; simpl.
    + split; [exact Hs|]. eapply Forall_impl; [|exact Hb]. simpl; intros; lia.
    + split.
      * constructor; [exact Hs|]. eapply Forall_impl; [|exact Hb]. simpl; intros; lia.
      * constructor; [lia|]. eapply Forall_impl; [|exact Hb]. simpl; intros; lia.
Qed.

(** C3: along every history of calls on a storage instance, starting in any
    state, the ids handed out by [create_todo] are strictly increasing,
    hence pairwise distinct and never handed out twice, whatever deletions
    lie between; every [create_todo] advances the counter by one and no
    call ever lowers it. *)
Theorem create_todo_ids_strictly_increasing
    (calls : list Call) (self : InMemoryTodoStorage) :
  StronglySorted Z.lt (issued_ids calls self)
  /\ NoDup (issued_ids calls self)
  /\ Forall (fun i => _next_id self <= i < _next_id (run calls self))
            (issued_ids calls self)
  /\ _next_id self <= _next_id (run calls self)
  /\ (forall c s, _next_id s <= _next_id (after c s))
  /\ (forall todo_data utcnow s,
         _next_id (snd (storage.create_todo todo_data utcnow s))
         = _next_id s + 1).
Proof.
  destruct (issued_ids_increasing calls self) as [Hs Hb].
  split; [exact Hs|]. split.
  { clear Hb. induction Hs as [|i l Hl IH Hi]; constructor; [|exact IH].
    intros Hin. rewrite Forall_forall in Hi. specialize (Hi _ Hin). lia. }
  split.
  { clear Hs Hb. revert self. induction calls as [|c calls IH]; intros self; simpl.
    - constructor.
    - apply Forall_app. split.
      + pose proof (next_id_run_le calls (after c self)) as Hle.
        destruct (issued_cases c self) as [-> | [-> Hnext]]; repeat constructor; lia.
      + eapply Forall_impl; [|apply IH]. simpl. intros i Hi.
        pose proof (next_id_after_le c self). lia. }
  split; [apply next_id_run_le|].
  split; [intros c s; apply next_id_after_le|].
  intros; apply create_todo_counter.
Qed.

(** ** Statistics *)

Lemma count_completed_filter todos :
  services.count_completed todos
  = Z.of_nat (List.length (filter Todo.completed todos)).
Proof.
  unfold services.count_completed.
  assert (H : forall acc,
             fold_left (fun acc todo => if Todo.completed todo then acc + 1 else acc)
                       todos acc
             = acc + Z.of_nat (List.length (filter Todo.completed todos))).
  { induction todos as [|t todos IH]; intros acc; simpl; [lia|].
    rewrite IH. destruct (Todo.completed t); simpl; lia. }
  now rewrite H.
Qed.

Lemma get_todo_stats_eq self :
  services.get_todo_stats self
  = (Return
       (let todos := Py.sorted Todo.created_at true (Py.values (_todos self)) in
        mk_stats (Z.of_nat (List.length todos))
                 (services.count_completed todos)
                 (Z.of_nat (List.length todos) - services.count_completed todos)),
     self).
Proof. reflexivity. Qed.

(** C8: in every state of the store [get_todo_stats] returns, without
    changing the store, statistics with pending + completed = total, and
    total is the length of the list [get_all_todos] returns in that state
    (which is the number of stored todos); neither count is negative. *)
Theorem get_todo_stats_consistent (self : InMemoryTodoStorage) :
  exists stats todos,
    services.get_todo_stats self = (Return stats, self)
    /\ services.get_all_todos self = (Return todos, self)
    /\ pending stats + stats_completed stats = total stats
    /\ total stats = Z.of_nat (List.length todos)
    /\ total stats = Z.of_nat (List.length (_todos self))
    /\ 0 <= stats_completed stats
    /\ 0 <= pending stats.
Proof.
  eexists. eexists. split; [apply get_todo_stats_eq|].
  split; [reflexivity|]. cbn [pending stats_completed total].
  rewrite count_completed_filter.
  set (todos := Py.sorted Todo.created_at true (Py.values (_todos self))).
  pose proof (filter_length_le Todo.completed todos) as Hle.
  assert (Hlen : List.length todos = List.length (_todos self)).
  { unfold todos. rewrite <- (Permutation_length (sorted_reverse_perm _ _)).
    unfold Py.values. apply length_map. }
  repeat split; lia.
Qed.

(** ** Bulk completion *)

Lemma completed_version_completed todo :
  Todo.completed (completed_version todo) = true.
Proof.
  unfold completed_version. destruct (Todo.completed todo) eqn:E; [exact E | reflexivity].
Qed.

Lemma count_completed_all todos :
  Forall (fun todo => Todo.completed todo = true) todos ->
  services.count_completed todos = Z.of_nat (List.length todos).
Proof.
  intros H. rewrite count_completed_filter. f_equal. f_equal.
  induction H as [|t l Ht Hl IH]; simpl; [reflexivity|].
  rewrite Ht. simpl. now rewrite IH.
Qed.

(** C7: in every reachable state with [k] todos that are not completed,
    [mark_all_complete] returns [k] and leaves a store in which each of
    those [k] todos has its flag raised and is otherwise as before, every
    todo that was already complete is as before, keys, order and counter
    are as before, and every todo is completed; the statistics taken
    afterwards report no pending todo. *)
Theorem mark_all_complete_counts_incomplete (self : InMemoryTodoStorage)
    (Hreach : reachable self) :
  let k := count_incomplete (_todos self) in
  let self' := storage.mk (map mark_entry (_todos self)) (_next_id self) in
  storage.mark_all_complete self = (Return k, self')
  /\ (exists message,
         services.mark_all_complete self = (Return (mk_bulk message k), self'))
  /\ Forall (fun kv =>
               let old := snd kv in
               let new := snd (mark_entry kv) in
               fst (mark_entry kv) = fst kv
               /\ Todo.id new = Todo.id old
               /\ Todo.title new = Todo.title old
               /\ Todo.created_at new = Todo.created_at old
               /\ Todo.completed new = true
               /\ (Todo.completed old = true -> new = old))
            (_todos self)
  /\ Forall (fun kv => Todo.completed (snd kv) = true) (_todos self')
  /\ (exists stats,
         services.get_todo_stats self' = (Return stats, self')
         /\ pending stats = 0).
Proof.
  intros k self'. pose proof (reachable_wf _ Hreach) as Hwf.
  pose proof (mark_all_complete_spec _ Hwf) as Hspec.
  assert (Hall : Forall (fun kv => Todo.completed (snd kv) = true) (_todos self')).
  { unfold self'. cbn [_todos]. apply Forall_map. apply Forall_forall.
    intros kv _. apply completed_version_completed. }
  split; [exact Hspec|]. split.
  { eexists. unfold services.mark_all_complete, storage.bind.
    rewrite Hspec. reflexivity. }
  split.
  { apply Forall_forall. intros [key todo] _. unfold mark_entry, completed_version.
    cbn [fst snd]. destruct (Todo.completed todo) eqn:E; cbn; auto 10.
    repeat split; auto. discriminate. }
  split; [exact Hall|].
  eexists. split; [apply get_todo_stats_eq|]. cbn [pending].
  rewrite count_completed_all; [lia|].
  eapply Permutation_Forall; [apply sorted_reverse_perm|].
  unfold Py.values. apply Forall_map. exact Hall.
Qed.

Lemma mark_all_complete_counts_incomplete_witness :
  storage.mark_all_complete store_two
  = (Return 1, storage.mk (map mark_entry (_todos store_two)) 3).
Proof.
  exact (proj1 (mark_all_complete_counts_incomplete store_two
                  reachable_store_two)).
Defined.

(** ** Creation *)

Lemma lstrip_nil_iff s : Py.lstrip s = [] <-> forallb Py.isspace s = true.
Proof.
  induction s as [|c s IH]; simpl; [tauto|].
  destruct (Py.isspace c); simpl; [exact IH|]. split; discriminate.
Qed.

Lemma lstrip_head s :
  match Py.lstrip s with
  | [] => True
  | c :: _ => Py.isspace c = false
  end.
Proof.
  induction s as [|c s IH]; simpl; [exact I|].
  destruct (Py.isspace c) eqn:E; [exact IH | exact E].
Qed.

(** A title is blank, that is empty after [strip], exactly when all its
    characters are whitespace. *)
Lemma strip_nil_iff s : Py.strip s = [] <-> forallb Py.isspace s = true.
Proof.
  unfold Py.strip, Py.rstrip. split.
  - intros H. apply (f_equal (@rev N)) in H. rewrite rev_involutive in H.
    simpl in H. apply lstrip_nil_iff in H.
    pose proof (lstrip_head s) as Hhead.
    destruct (Py.lstrip s) as [|c r] eqn:E; [now apply lstrip_nil_iff|].
    exfalso. rewrite forallb_forall in H.
    specialize (H c). rewrite <- in_rev in H.
    rewrite H in Hhead; [discriminate | now left].
  - intros H. apply lstrip_nil_iff in H. now rewrite H.
Qed.

(** C4: for every title that is blank (empty once stripped, that is empty
    or made of whitespace only) the service's [create_todo] raises the
    application's [ValidationError] and the storage is exactly as before,
    so it holds as many todos as before. *)
Theorem create_todo_blank_title_rejected
    (todo_data : TodoCreate.t) (utcnow : Z) (self : InMemoryTodoStorage)
    (Hblank : Py.strip (TodoCreate.title todo_data) = []) :
  services.create_todo todo_data utcnow self
  = (Raise (ValidationError services.msg_blank_title), self)
  /\ List.length (_todos (snd (services.create_todo todo_data utcnow self)))
     = List.length (_todos self).
Proof.
  unfold services.create_todo. rewrite Hblank. simpl. split; reflexivity.
Qed.

Lemma create_todo_blank_title_rejected_witness :
  services.create_todo (TodoCreate.mk [32; 9; 32]%N) 1000 store_two
  = (Raise (ValidationError services.msg_blank_title), store_two).
Proof.
  exact (proj1 (create_todo_blank_title_rejected
                  (TodoCreate.mk [32; 9; 32]%N) 1000 store_two eq_refl)).
Defined.

(** C5, as amended: for every title whose stripped form has between 1 and
    500 characters, none of them a surrogate, and every reachable state,
    the service's [create_todo] returns a todo with [completed = false], a
    positive id that no stored todo has, the stripped title, and
    [created_at] equal to the clock reading of the call; that todo is what
    the store then holds under the id, after all the todos it held
    before. *)
Theorem create_todo_valid_title
    (title : Py.str) (utcnow : Z) (self : InMemoryTodoStorage)
    (Hreach : reachable self)
    (Hnonblank : Py.strip title <> [])
    (Hlen : Py.len (Py.strip title) <= 500)
    (Hunicode : Py.utf8_encodable (Py.strip title) = true) :
  let todo := Todo.mk (_next_id self) (Py.strip title) false utcnow in
  let self' := storage.mk (_todos self ++ [(_next_id self, todo)])
                          (_next_id self + 1) in
  services.create_todo (TodoCreate.mk title) utcnow self = (Return todo, self')
  /\ 0 < Todo.id todo
  /\ Py.get (_todos self) (Todo.id todo) = None
  /\ Py.get (_todos self') (Todo.id todo) = Some todo.
Proof.
  intros todo self'. pose proof (reachable_wf _ Hreach) as Hwf.
  pose proof (wf_next_id_fresh _ Hwf) as Hfresh.
  assert (Hok : title_ok (Py.strip title) = true).
  { unfold title_ok. rewrite Hunicode. cbn [andb].
    apply andb_true_intro. split; [|now apply Z.leb_le].
    apply Z.leb_le. unfold Py.len. destruct (Py.strip title); [congruence|].
    simpl List.length. lia. }
  assert (Hrun : services.create_todo (TodoCreate.mk title) utcnow self
                 = (Return todo, self')).
  { unfold services.create_todo. cbn [TodoCreate.title].
    assert (Htruthy : Py.truthy (Py.strip title) = true)
      by (destruct (Py.strip title); [congruence | reflexivity]).
    rewrite Htruthy. cbn [negb].
    unfold TodoCreate.new. rewrite Hok.
    unfold storage.create_todo. cbn [TodoCreate.title].
    rewrite Todo_new_Return by exact Hok. cbn [_todos _next_id].
    rewrite set_absent by exact Hfresh. reflexivity. }
  split; [exact Hrun|]. split; [apply (wf_next _ Hwf)|].
  split; [now apply get_None_not_key|].
  unfold self'. cbn [_todos]. rewrite <- set_absent by exact Hfresh.
  apply get_set_same.
Qed.

Lemma create_todo_valid_title_witness :
  services.create_todo (TodoCreate.mk (32%N :: title_buy_milk)) 2000 store_two
  = (Return (Todo.mk 3 title_buy_milk false 2000),
     storage.mk (_todos store_two ++ [(3, Todo.mk 3 title_buy_milk false 2000)])
                4).
Proof.
  refine (proj1 (create_todo_valid_title (32%N :: title_buy_milk) 2000 store_two
                   reachable_store_two _ _ _)).
  - vm_compute. discriminate.
  - vm_compute. discriminate.
  - vm_compute. reflexivity.
Defined.

(** C5 as stated fails: a title of 501 letters is not empty once stripped,
    and the service's [create_todo] raises pydantic's validation error on
    it, from the [TodoCreate] it builds for the stripped title. *)
Lemma create_todo_title_501_raises :
  Py.strip title_501 <> []
  /\ services.create_todo (TodoCreate.mk title_501) 0 storage.__init__
     = (Raise PydanticValidationError, storage.__init__).
Proof. split; [vm_compute; discriminate | vm_compute; reflexivity]. Qed.

(** ** Update *)

Lemma update_todo_storable todo_id update_data current self :
  Py.get (_todos self) todo_id = Some current ->
  title_ok (Todo.title current) = true ->
  storable update_data = true ->
  storage.update_todo todo_id update_data self
  = (Return (Some (patched update_data current)),
     storage.mk (Py.set (_todos self) todo_id (patched update_data current))
                (_next_id self)).
Proof.
  intros Hget Hcur Hst. unfold storage.update_todo. rewrite Hget.
  unfold storable in Hst. apply andb_prop in Hst. destruct Hst as [Ht Hc].
  unfold TodoUpdate.model_dump_exclude_unset, patched.
  cbn [TodoUpdate.d_title TodoUpdate.d_completed].
  destruct (TodoUpdate.is_set "title" update_data);
    destruct (TodoUpdate.is_set "completed" update_data);
    cbn [TodoUpdate.dict_get];
    repeat match goal with
      | H : match ?x with Some _ => _ | None => _ end = true |- _ =>
          destruct x; [|discriminate H]
      end;
    rewrite Todo_new_Return by assumption; reflexivity.
Qed.

(** C6, as amended: in every reachable state, [update_todo] on an id the
    store does not hold returns [None] and changes nothing, whatever the
    patch; on an id it holds, with a patch whose explicitly set fields
    carry values the [Todo] model accepts (a title of 1 to 500 characters,
    none of them a surrogate, and a boolean flag), it returns the stored
    todo with the set fields taken
    from the patch and every other field, id and [created_at] among them,
    as before; the store then holds the returned todo under that id, every
    other id maps to what it did, and keys, order and counter are as
    before. *)
Theorem update_todo_applies_set_fields
    (todo_id : Z) (self : InMemoryTodoStorage) (Hreach : reachable self) :
  (Py.get (_todos self) todo_id = None ->
   forall update_data,
     storage.update_todo todo_id update_data self = (Return None, self))
  /\ (forall current update_data,
         Py.get (_todos self) todo_id = Some current ->
         storable update_data = true ->
         let updated := patched update_data current in
         let self' := storage.mk (Py.set (_todos self) todo_id updated)
                                 (_next_id self) in
         storage.update_todo todo_id update_data self
         = (Return (Some updated), self')
         /\ Todo.id updated = Todo.id current
         /\ Todo.created_at updated = Todo.created_at current
         /\ (if TodoUpdate.is_set "title" update_data
             then TodoUpdate.title update_data = Some (Todo.title updated)
             else Todo.title updated = Todo.title current)
         /\ (if TodoUpdate.is_set "completed" update_data
             then TodoUpdate.completed update_data
                  = Some (Todo.completed updated)
             else Todo.completed updated = Todo.completed current)
         /\ Py.get (_todos self') todo_id = Some updated
         /\ (forall other, other <> todo_id ->
               Py.get (_todos self') other = Py.get (_todos self) other)
         /\ Py.keys (_todos self') = Py.keys (_todos self)).
Proof.
  pose proof (reachable_wf _ Hreach) as Hwf. split.
  - intros Hget update_data. unfold storage.update_todo. now rewrite Hget.
  - intros current update_data Hget Hst updated self'.
    destruct (wf_get _ _ _ Hwf Hget) as (_ & Hcur & _).
    split; [now apply update_todo_storable|].
    split; [reflexivity|]. split; [reflexivity|].
    unfold storable in Hst. apply andb_prop in Hst. destruct Hst as [Ht Hc].
    unfold updated, patched. cbn [Todo.title Todo.completed].
    split.
    { destruct (TodoUpdate.is_set "title" update_data); [|reflexivity].
      destruct (TodoUpdate.title update_data); [reflexivity | discriminate]. }
    split.
    { destruct (TodoUpdate.is_set "completed" update_data); [|reflexivity].
      destruct (TodoUpdate.completed update_data); [reflexivity | discriminate]. }
    unfold self'. cbn [_todos].
    split; [apply get_set_same|].
    split; [intros other Hne; now apply get_set_other|].
    apply keys_set_present.
    destruct (in_dec Z.eq_dec todo_id (Py.keys (_todos self))) as [H|H]; [exact H|].
    apply get_None_not_key in H. congruence.
Qed.

Lemma update_todo_applies_set_fields_witness :
  storage.update_todo 7 patch_null_title store_two = (Return None, store_two)
  /\ storage.update_todo 2
       (TodoUpdate.mk (Some true) None ["completed"%string]) store_two
     = (Return (Some (Todo.mk 2 title_walk_dog true 1000)),
        storage.mk [(1, Todo.mk 1 title_buy_milk true 1000);
                    (2, Todo.mk 2 title_walk_dog true 1000)] 3).
Proof.
  split.
  - exact (proj1 (update_todo_applies_set_fields 7 store_two
                    reachable_store_two) eq_refl patch_null_title).
  - exact (proj1 (proj2 (update_todo_applies_set_fields 2 store_two
                           reachable_store_two)
                    (Todo.mk 2 title_walk_dog false 1000)
                    (TodoUpdate.mk (Some true) None ["completed"%string])
                    eq_refl eq_refl)).
Defined.

(** C6 as stated fails: the store holds a todo under id 1, and the patch
    with the title explicitly set to null makes [update_todo] raise instead
    of returning an updated todo. *)
Lemma update_todo_null_title_raises :
  Py.contains (_todos store_two) 1 = true
  /\ storage.update_todo 1 patch_null_title store_two
     = (Raise PydanticValidationError, store_two).
Proof. split; reflexivity. Qed.

(** C10: for every reachable state, every id the store holds and every
    patch whose title was explicitly set to null and whose flag is a
    boolean, the dump of the patch keeps the title key with value null, the
    storage's [update_todo] raises pydantic's validation error from the
    [Todo] it builds, the service's [update_todo] lets that error through
    (it is neither [ValidationError] nor [TodoNotFoundError]), the route
    answers 500, and the store is as before. *)
Theorem update_todo_null_title_uncategorized
    (todo_id : Z) (update_data : TodoUpdate.t) (b : bool)
    (current : Todo.t) (self : InMemoryTodoStorage)
    (Hreach : reachable self)
    (Hget : Py.get (_todos self) todo_id = Some current)
    (Htitle : TodoUpdate.title update_data = None)
    (Hset : TodoUpdate.is_set "title" update_data = true)
    (Hcompleted : TodoUpdate.completed update_data = Some b) :
  TodoUpdate.d_title (TodoUpdate.model_dump_exclude_unset update_data)
  = Some None
  /\ storage.update_todo todo_id update_data self
     = (Raise PydanticValidationError, self)
  /\ services.update_todo todo_id update_data self
     = (Raise PydanticValidationError, self)
  /\ routes.update_todo todo_id update_data self
     = (routes.HTTPException 500 "Failed to update todo", self).
Proof.
  destruct (wf_get _ _ _ (reachable_wf _ Hreach) Hget) as (_ & _ & Hpos).
  assert (Hdump : TodoUpdate.d_title
                    (TodoUpdate.model_dump_exclude_unset update_data)
                  = Some None).
  { unfold TodoUpdate.model_dump_exclude_unset. cbn [TodoUpdate.d_title].
    now rewrite Hset, Htitle. }
  assert (Hstorage : storage.update_todo todo_id update_data self
                     = (Raise PydanticValidationError, self)).
  { unfold storage.update_todo. rewrite Hget, Hdump. reflexivity. }
  assert (Hservice : services.update_todo todo_id update_data self
                     = (Raise PydanticValidationError, self)).
  { unfold services.update_todo.
    assert (Hid : (todo_id <=? 0) = false) by (apply Z.leb_gt; lia).
    rewrite Hid, Htitle, Hcompleted. cbn [services.is_not_None orb negb].
    unfold storage.bind. now rewrite Hstorage. }
  repeat split; try assumption.
  unfold routes.update_todo, routes.respond. now rewrite Hservice.
Qed.

Lemma update_todo_null_title_uncategorized_witness :
  services.update_todo 1 patch_null_title store_two
  = (Raise PydanticValidationError, store_two).
Proof.
  exact (proj1 (proj2 (proj2 (update_todo_null_title_uncategorized
                                1 patch_null_title true
                                (Todo.mk 1 title_buy_milk true 1000) store_two
                                reachable_store_two eq_refl eq_refl eq_refl
                                eq_refl)))).
Defined.

(** ** Deletion *)

(** C9, as amended: for every positive id of at most 4300 decimal digits,
    [get_todo_by_id] after [delete_todo] of that id raises
    [TodoNotFoundError]; [delete_todo] of such an id that the store does
    not hold (one already deleted included) raises [TodoNotFoundError] and
    leaves the store as it was; for an id that is zero or negative both
    [delete_todo] and [get_todo_by_id] raise [ValidationError] and leave
    the store as it was. *)
Theorem delete_todo_then_get_not_found
    (todo_id : Z) (self : InMemoryTodoStorage) :
  (0 < todo_id < 10 ^ services.int_max_str_digits ->
   let self' := snd (services.delete_todo todo_id self) in
   services.get_todo_by_id todo_id self'
   = (Raise (TodoNotFoundError todo_id), self')
   /\ services.delete_todo todo_id self'
      = (Raise (TodoNotFoundError todo_id), self'))
  /\ (0 < todo_id < 10 ^ services.int_max_str_digits ->
      Py.contains (_todos self) todo_id = false ->
      services.delete_todo todo_id self
      = (Raise (TodoNotFoundError todo_id), self))
  /\ (todo_id <= 0 ->
      services.delete_todo todo_id self
      = (Raise (ValidationError services.msg_positive_id), self)
      /\ services.get_todo_by_id todo_id self
         = (Raise (ValidationError services.msg_positive_id), self)).
Proof.
  assert (Habsent : forall s, 0 < todo_id ->
            Py.contains (_todos s) todo_id = false ->
            services.delete_todo todo_id s
            = (Raise (TodoNotFoundError todo_id), s)).
  { intros s Hpos Hc. unfold services.delete_todo.
    replace (todo_id <=? 0) with false by (symmetry; apply Z.leb_gt; lia).
    unfold storage.bind, storage.delete_todo. now rewrite Hc. }
  assert (Hgone : 0 < todo_id ->
            Py.get (_todos (snd (services.delete_todo todo_id self))) todo_id
            = None).
  { intros Hpos. unfold services.delete_todo.
    replace (todo_id <=? 0) with false by (symmetry; apply Z.leb_gt; lia).
    unfold storage.bind, storage.delete_todo.
    destruct (Py.contains (_todos self) todo_id) eqn:C; cbn.
    - apply get_del_same.
    - unfold Py.contains in C. now destruct (Py.get (_todos self) todo_id). }
  split; [|split].
  - intros [Hpos _] self'. specialize (Hgone Hpos). fold self' in Hgone.
    split.
    + unfold services.get_todo_by_id.
      replace (todo_id <=? 0) with false by (symmetry; apply Z.leb_gt; lia).
      unfold storage.bind, storage.get_todo_by_id. now rewrite Hgone.
    + apply Habsent; [exact Hpos|]. unfold Py.contains. now rewrite Hgone.
  - intros [Hpos _] Hc. now apply Habsent.
  - intros Hle. apply Z.leb_le in Hle.
    unfold services.delete_todo, services.get_todo_by_id. rewrite Hle.
    split; reflexivity.
Qed.

Lemma delete_todo_then_get_not_found_witness :
  services.get_todo_by_id 1 (snd (services.delete_todo 1 store_two))
  = (Raise (TodoNotFoundError 1), snd (services.delete_todo 1 store_two))
  /\ services.delete_todo 5 store_two = (Raise (TodoNotFoundError 5), store_two)
  /\ services.delete_todo (-3) store_two
     = (Raise (ValidationError services.msg_positive_id), store_two).
Proof.
  split; [|split].
  - destruct (delete_todo_then_get_not_found 1 store_two) as [H _].
    apply H. split; [lia | vm_compute; reflexivity].
  - destruct (delete_todo_then_get_not_found 5 store_two) as (_ & H & _).
    apply H; [split; [lia | vm_compute; reflexivity] | reflexivity].
  - destruct (delete_todo_then_get_not_found (-3) store_two) as (_ & _ & H).
    apply H. lia.
Defined.

(** C9 as stated fails at the id 0: [get_todo_by_id] after [delete_todo]
    raises [ValidationError], which is not the not-found failure. *)
Lemma delete_todo_then_get_id_zero :
  services.get_todo_by_id 0 (snd (services.delete_todo 0 store_two))
  = (Raise (ValidationError services.msg_positive_id), store_two)
  /\ fst (services.get_todo_by_id 0 (snd (services.delete_todo 0 store_two)))
     <> Raise (TodoNotFoundError 0).
Proof. split; [reflexivity | discriminate]. Qed.

(** ** Routing *)

(** The endpoint behind the statistics route answers 200 with the three
    counts in every state of the store. *)
Lemma get_todo_stats_endpoint_ok self :
  exists stats,
    routes.get_todo_stats self
    = (routes.mk_response 200 (routes.StatsJson stats), self).
Proof.
  unfold routes.get_todo_stats, routes.respond.
  rewrite get_todo_stats_eq. eexists. reflexivity.
Qed.

(** The template of the get-by-id route matches the statistics path, with
    the segment [stats] as the value of [todo_id]. *)
Lemma get_todo_route_matches_stats :
  routes.match_path "/api/todos/{todo_id}" "/api/todos/stats"
  = Some [("todo_id"%string, "stats"%string)].
Proof. reflexivity. Qed.

(** C1 fails on the code: in every state of the store the request
    GET /api/todos/stats is matched by the route of [get_todo], declared
    before the route of [get_todo_stats]; [stats] is not an integer, so the
    answer is 422 with the validation errors of the request, the statistics
    endpoint is not called and the store is as before. *)
Theorem stats_request_routed_to_get_todo
    (utcnow : Z) (self : InMemoryTodoStorage) :
  routes.find_route routes.app_routes routes.GET "/api/todos/stats" false
  = routes.Full
      (routes.mk_route routes.GET "/api/todos/{todo_id}" routes.E_get_todo)
      [("todo_id"%string, "stats"%string)]
  /\ routes.parse_int "stats" = None
  /\ routes.app request_stats utcnow self
     = (routes.mk_response 422 routes.RequestValidationErrors, self)
  /\ routes.app request_stats utcnow self <> routes.get_todo_stats self.
Proof.
  assert (Happ : routes.app request_stats utcnow self
                 = (routes.mk_response 422 routes.RequestValidationErrors, self))
    by reflexivity.
  repeat split; try reflexivity.
  rewrite Happ. destruct (get_todo_stats_endpoint_ok self) as [stats ->].
  discriminate.
Qed.

(** ** Scenarios *)

(** The scenario of the specification, with clock readings 1000 and 2000:
    create "Buy milk", complete it, create "Walk dog"; the listing is
    newest first, the statistics count one completed and one pending todo,
    and deleting the completed todos removes one and leaves id 2. *)
Example scenario_of_the_specification :
  let self :=
    run [ Call_create_todo (TodoCreate.mk title_buy_milk) 1000;
          Call_update_todo 1
            (TodoUpdate.mk (Some true) None ["completed"%string]);
          Call_create_todo (TodoCreate.mk title_walk_dog) 2000 ]
        storage.__init__ in
  fst (services.get_all_todos self)
  = Return [Todo.mk 2 title_walk_dog false 2000;
            Todo.mk 1 title_buy_milk true 1000]
  /\ fst (services.get_todo_stats self) = Return (mk_stats 2 1 1)
  /\ fst (storage.delete_completed_todos self) = Return 1
  /\ fst (services.get_all_todos
            (snd (storage.delete_completed_todos self)))
     = Return [Todo.mk 2 title_walk_dog false 2000].
Proof. repeat split; reflexivity. Qed.

(** [test_bulk_operations] of the test suite: three todos, all marked
    complete, all deleted, nothing left. *)
Example scenario_bulk_operations :
  let post n :=
    routes.mk_request routes.POST "/api/todos"
      (Some (routes.mk_body (Some (Some [84; 111; 100; 111; 32; n]%N)) None)) in
  let s1 := snd (routes.app (post 48%N) 1 storage.__init__) in
  let s2 := snd (routes.app (post 49%N) 2 s1) in
  let s3 := snd (routes.app (post 50%N) 3 s2) in
  let marked :=
    routes.app (routes.mk_request routes.POST "/api/todos/bulk/mark-complete"
                                  None) 4 s3 in
  let deleted :=
    routes.app (routes.mk_request routes.DELETE "/api/todos/bulk/completed"
                                  None) 5 (snd marked) in
  fst marked
  = routes.mk_response 200
      (routes.BulkJson (mk_bulk "Marked 3 todos as complete" 3))
  /\ fst deleted
     = routes.mk_response 200
         (routes.BulkJson (mk_bulk "Deleted 3 completed todos" 3))
  /\ fst (routes.app (routes.mk_request routes.GET "/api/todos" None) 6
                     (snd deleted))
     = routes.mk_response 200 (routes.TodoListJson []).
Proof. repeat split; reflexivity. Qed.

(** The request PUT /api/todos/1 with body
    [{"title": null, "completed": true}] passes the validation of the
    request and is answered 500. *)
Example scenario_put_null_title :
  routes.app
    (routes.mk_request routes.PUT "/api/todos/1"
       (Some (routes.mk_body (Some None) (Some (Some true)))))
    3000 store_two
  = (routes.HTTPException 500 "Failed to update todo", store_two).
Proof. reflexivity. Qed.

(** The bulk routes have three segments after the prefix and are not
    matched by the two-segment template of the id routes. *)
Example scenario_bulk_route_reached :
  routes.find_route routes.app_routes routes.DELETE "/api/todos/bulk/all" false
  = routes.Full
      (routes.mk_route routes.DELETE "/api/todos/bulk/all"
                       routes.E_delete_all_todos) [].
Proof. reflexivity. Qed.

(** * Further properties of the storage *)

(** ** More facts about the dictionary *)

Section DictRemoval.
Context {V : Type}.
Implicit Types (d : Py.dict V) (k : Z) (v : V).

Lemma del_filter d k :
  Py.del d k = filter (fun kv => negb (fst kv =? k)) d.
Proof.
  induction d as [|[k' v'] d IH]; simpl; [reflexivity|].
  destruct (k' =? k); simpl; now rewrite IH.
Qed.

Lemma fold_del_filter (ids : list Z) d :
  fold_left Py.del ids d
  = filter (fun kv => negb (existsb (Z.eqb (fst kv)) ids)) d.
Proof.
  revert d. induction ids as [|k ids IH]; intros d; simpl.
  - induction d as [|kv d IHd]; simpl; [reflexivity | now rewrite <- IHd].
  - rewrite IH, del_filter. clear IH.
    induction d as [|kv d IHd]; simpl; [reflexivity|].
    destruct (fst kv =? k); simpl; [exact IHd|].
    destruct (existsb (Z.eqb (fst kv)) ids); simpl; now rewrite IHd.
Qed.

Lemma NoDup_keys_functional d k v v' :
  NoDup (Py.keys d) -> In (k, v) d -> In (k, v') d -> v = v'.
Proof.
  induction d as [|[k0 v0] d IH]; simpl; [tauto|].
  intros Hnd [H1|H1] [H2|H2]; inversion Hnd as [|? ? Hnin Hnd']; subst.
  - congruence.
  - injection H1 as -> ->. exfalso. apply Hnin.
    change k with (fst (k, v')). now apply in_map.
  - injection H2 as -> ->. exfalso. apply Hnin.
    change k with (fst (k, v)). now apply in_map.
  - now apply IH.
Qed.

Lemma In_get_Some d k v :
  NoDup (Py.keys d) -> In (k, v) d -> Py.get d k = Some v.
Proof.
  intros Hnd Hin. destruct (Py.get d k) as [v'|] eqn:G.
  - apply get_Some_In in G. f_equal. eapply NoDup_keys_functional; eauto.
  - apply get_None_not_key in G. exfalso. apply G.
    change k with (fst (k, v)). now apply in_map.
Qed.

(** Deleting a key that is there takes out its entry and leaves the
    entries before and after it where they were. *)
Lemma del_present_split d k v :
  NoDup (Py.keys d) -> Py.get d k = Some v ->
  exists pre post, d = pre ++ (k, v) :: post /\ Py.del d k = pre ++ post.
Proof.
  induction d as [|[k' v'] d IH]; simpl; [discriminate|].
  intros Hnd Hget. inversion Hnd as [|? ? Hnin Hnd']; subst.
  destruct (k' =? k) eqn:E.
  - apply Z.eqb_eq in E. subst k'. injection Hget as ->.
    exists [], d. split; [reflexivity|]. simpl.
    apply del_absent. now apply get_None_not_key.
  - destruct (IH Hnd' Hget) as (pre & post & -> & Hdel).
    exists ((k', v') :: pre), post. simpl. now rewrite Hdel.
Qed.
End DictRemoval.

Lemma reachable_keys_NoDup self :
  reachable self -> NoDup (Py.keys (_todos self)).
Proof. intros H. apply keys_NoDup. apply (wf_sorted _ (reachable_wf _ H)). Qed.

(** ** Deleting one todo *)

(** X1: in every reachable state [delete_todo] returns [True] exactly when
    the id is stored; it then takes out the entry of that id and nothing
    else, the entries before and after it keep their order, every other id
    maps to what it did, and the counter is as before; when the id is not
    stored it returns [False] and the storage is as before. *)
Theorem storage_delete_todo_removes_one_entry
    (todo_id : Z) (self : InMemoryTodoStorage) (Hreach : reachable self) :
  match Py.get (_todos self) todo_id with
  | Some todo =>
      exists pre post,
        _todos self = pre ++ (todo_id, todo) :: post
        /\ storage.delete_todo todo_id self
           = (Return true, storage.mk (pre ++ post) (_next_id self))
        /\ Py.get (pre ++ post) todo_id = None
        /\ (forall other, other <> todo_id ->
              Py.get (pre ++ post) other = Py.get (_todos self) other)
  | None => storage.delete_todo todo_id self = (Return false, self)
  end.
Proof.
  pose proof (reachable_keys_NoDup _ Hreach) as Hnd.
  unfold storage.delete_todo, Py.contains.
  destruct (Py.get (_todos self) todo_id) as [todo|] eqn:G; [|reflexivity].
  destruct (del_present_split _ _ _ Hnd G) as (pre & post & Hd & Hdel).
  exists pre, post. rewrite Hdel. repeat split; try assumption.
  - rewrite <- Hdel. apply get_del_same.
  - intros other Hne. rewrite <- Hdel. now apply get_del_other.
Qed.

Lemma storage_delete_todo_removes_one_entry_witness :
  exists pre post,
    _todos store_two = pre ++ (1, Todo.mk 1 title_buy_milk true 1000) :: post
    /\ storage.delete_todo 1 store_two
       = (Return true, storage.mk (pre ++ post) 3).
Proof.
  destruct (storage_delete_todo_removes_one_entry 1 store_two
              reachable_store_two) as (pre & post & H1 & H2 & _).
  exists pre, post. split; assumption.
Defined.

(** ** Deleting the completed todos *)

Lemma delete_completed_spec self :
  wf self ->
  storage.delete_completed_todos self
  = (Return (count_complete (_todos self)),
     storage.mk (incomplete_entries (_todos self)) (_next_id self)).
Proof.
  intros Hwf. pose proof (keys_NoDup _ (wf_sorted _ Hwf)) as Hnd.
  unfold storage.delete_completed_todos, count_complete, incomplete_entries.
  rewrite length_map, fold_del_filter. do 2 f_equal.
  apply filter_ext_in. intros [k todo] Hin. cbn [fst snd]. f_equal.
  destruct (Todo.completed todo) eqn:C.
  - apply existsb_exists. exists k. split; [|apply Z.eqb_refl].
    change k with (fst (k, todo)). apply in_map. apply filter_In. now split.
  - destruct (existsb _ _) eqn:Ex; [|reflexivity].
    apply existsb_exists in Ex. destruct Ex as (k' & Hin' & Heq).
    apply Z.eqb_eq in Heq. subst k'. apply in_map_iff in Hin'.
    destruct Hin' as ([k' todo'] & Hk & Hin'). cbn in Hk. subst k'.
    apply filter_In in Hin'. destruct Hin' as [Hin' C']. cbn in C'.
    rewrite (NoDup_keys_functional _ _ _ _ Hnd Hin Hin') in C. congruence.
Qed.

Lemma filter_complement_length {A : Type} (f : A -> bool) (l : list A) :
  (List.length (filter f l) + List.length (filter (fun x => negb (f x)) l)
   = List.length l)%nat.
Proof.
  induction l as [|x l IH]; simpl; [reflexivity|].
  destruct (f x); simpl; lia.
Qed.

Lemma filter_none {A : Type} (f : A -> bool) (l : list A) :
  Forall (fun x => f x = false) l -> filter f l = [].
Proof.
  induction 1 as [|x l Hx Hl IH]; simpl; [reflexivity|]. now rewrite Hx.
Qed.

(** X2: in every reachable state [delete_completed_todos] returns the
    number of completed todos and leaves exactly the todos that are not
    completed, in their order, with the counter as before; the count
    returned and the number of todos left add up to the number before; the
    service wraps the same count, and the statistics taken afterwards
    report no completed todo. *)
Theorem delete_completed_todos_keeps_incomplete
    (self : InMemoryTodoStorage) (Hreach : reachable self) :
  let self' := storage.mk (incomplete_entries (_todos self)) (_next_id self) in
  storage.delete_completed_todos self
  = (Return (count_complete (_todos self)), self')
  /\ (exists message,
         services.delete_completed_todos self
         = (Return (mk_bulk message (count_complete (_todos self))), self'))
  /\ count_complete (_todos self) + Z.of_nat (List.length (_todos self'))
     = Z.of_nat (List.length (_todos self))
  /\ Forall (fun kv => Todo.completed (snd kv) = false) (_todos self')
  /\ (exists stats,
         services.get_todo_stats self' = (Return stats, self')
         /\ stats_completed stats = 0
         /\ pending stats = total stats).
Proof.
  intros self'. pose proof (delete_completed_spec _ (reachable_wf _ Hreach)) as Hspec.
  assert (Hall : Forall (fun kv => Todo.completed (snd kv) = false) (_todos self')).
  { unfold self', incomplete_entries. cbn [_todos]. apply Forall_forall.
    intros kv Hin. apply filter_In in Hin. destruct Hin as [_ H].
    now apply negb_true_iff in H. }
  split; [exact Hspec|]. split.
  { eexists. unfold services.delete_completed_todos, storage.bind.
    rewrite Hspec. reflexivity. }
  split.
  { unfold count_complete, self', incomplete_entries. cbn [_todos].
    pose proof (filter_complement_length
                  (fun kv : Z * Todo.t => Todo.completed (snd kv)) (_todos self)).
    lia. }
  split; [exact Hall|].
  eexists. split; [apply get_todo_stats_eq|]. cbn [stats_completed pending total].
  assert (H0 : services.count_completed
                 (Py.sorted Todo.created_at true (Py.values (_todos self'))) = 0).
  { rewrite count_completed_filter.
    rewrite filter_none; [reflexivity|].
    eapply Permutation_Forall; [apply sorted_reverse_perm|].
    unfold Py.values. apply Forall_map. exact Hall. }
  rewrite H0. split; [reflexivity | lia].
Qed.

Lemma delete_completed_todos_keeps_incomplete_witness :
  storage.delete_completed_todos store_two
  = (Return 1, storage.mk [(2, Todo.mk 2 title_walk_dog false 1000)] 3).
Proof.
  exact (proj1 (delete_completed_todos_keeps_incomplete store_two
                  reachable_store_two)).
Defined.

(** ** Bulk operations composed *)

Lemma completed_version_idempotent todo :
  completed_version (completed_version todo) = completed_version todo.
Proof.
  unfold completed_version at 1. now rewrite completed_version_completed.
Qed.

Lemma mark_entries_idempotent (d : Py.dict Todo.t) :
  map mark_entry (map mark_entry d) = map mark_entry d.
Proof.
  rewrite map_map. apply map_ext. intros [k todo]. unfold mark_entry.
  cbn [fst snd]. now rewrite completed_version_idempotent.
Qed.

Lemma count_incomplete_marked (d : Py.dict Todo.t) :
  count_incomplete (map mark_entry d) = 0.
Proof.
  unfold count_incomplete, Py.values. rewrite filter_none; [reflexivity|].
  apply Forall_map, Forall_map, Forall_forall. intros kv _.
  unfold incomplete, mark_entry. cbn [snd].
  now rewrite completed_version_completed.
Qed.

Lemma incomplete_entries_marked (d : Py.dict Todo.t) :
  incomplete_entries (map mark_entry d) = [].
Proof.
  unfold incomplete_entries. apply filter_none.
  apply Forall_map, Forall_forall. intros kv _. unfold mark_entry. cbn [snd].
  now rewrite completed_version_completed.
Qed.

Lemma count_complete_marked (d : Py.dict Todo.t) :
  count_complete (map mark_entry d) = Z.of_nat (List.length d).
Proof.
  unfold count_complete.
  pose proof (filter_complement_length
                (fun kv : Z * Todo.t => Todo.completed (snd kv))
                (map mark_entry d)) as H.
  fold (incomplete_entries (map mark_entry d)) in H.
  rewrite incomplete_entries_marked, length_map in H. simpl in H. lia.
Qed.

(** X3: in every reachable state a second [mark_all_complete] right after
    the first returns 0 and changes nothing. *)
Theorem mark_all_complete_twice
    (self : InMemoryTodoStorage) (Hreach : reachable self) :
  let self' := snd (storage.mark_all_complete self) in
  storage.mark_all_complete self' = (Return 0, self').
Proof.
  intros self'. pose proof (reachable_wf _ Hreach) as Hwf.
  pose proof (wf_mark_all_complete _ Hwf) as Hwf'. fold self' in Hwf'.
  rewrite (mark_all_complete_spec _ Hwf').
  unfold self'. rewrite (mark_all_complete_spec _ Hwf). cbn [snd _todos _next_id].
  now rewrite count_incomplete_marked, mark_entries_idempotent.
Qed.

Lemma mark_all_complete_twice_witness :
  storage.mark_all_complete (snd (storage.mark_all_complete store_two))
  = (Return 0, snd (storage.mark_all_complete store_two)).
Proof. exact (mark_all_complete_twice store_two reachable_store_two). Defined.

(** X4: in every reachable state [delete_completed_todos] right after
    [mark_all_complete] returns the number of todos the store held and
    leaves it empty, with the counter as before. *)
Theorem mark_all_then_delete_completed_empties
    (self : InMemoryTodoStorage) (Hreach : reachable self) :
  storage.delete_completed_todos (snd (storage.mark_all_complete self))
  = (Return (Z.of_nat (List.length (_todos self))),
     storage.mk [] (_next_id self)).
Proof.
  pose proof (reachable_wf _ Hreach) as Hwf.
  rewrite (delete_completed_spec _ (wf_mark_all_complete _ Hwf)).
  rewrite (mark_all_complete_spec _ Hwf). cbn [snd _todos _next_id].
  now rewrite count_complete_marked, incomplete_entries_marked.
Qed.

Lemma mark_all_then_delete_completed_empties_witness :
  storage.delete_completed_todos (snd (storage.mark_all_complete store_two))
  = (Return 2, storage.mk [] 3).
Proof.
  exact (mark_all_then_delete_completed_empties store_two reachable_store_two).
Defined.

(** ** Listing and lookup *)

Lemma values_ids self :
  wf self -> map Todo.id (Py.values (_todos self)) = Py.keys (_todos self).
Proof.
  intros [_ _ He _]. unfold Py.values, Py.keys. rewrite map_map.
  apply map_ext_in. intros kv Hin. rewrite Forall_forall in He.
  now apply He.
Qed.

Lemma stored_iff_lookup self todo :
  wf self ->
  In todo (Py.values (_todos self))
  <-> Py.get (_todos self) (Todo.id todo) = Some todo.
Proof.
  intros Hwf. pose proof (keys_NoDup _ (wf_sorted _ Hwf)) as Hnd. split.
  - intros Hin. apply in_map_iff in Hin. destruct Hin as ([k t] & Ht & Hin).
    cbn in Ht. subst t. pose proof (wf_entries _ Hwf) as He.
    rewrite Forall_forall in He. destruct (He _ Hin) as [Hid _]. cbn in Hid.
    rewrite Hid. now apply In_get_Some.
  - intros Hget. apply get_Some_In in Hget.
    change todo with (snd (Todo.id todo, todo)). now apply in_map.
Qed.

Lemma service_get_Some todo_id todo self :
  0 < todo_id -> Py.get (_todos self) todo_id = Some todo ->
  services.get_todo_by_id todo_id self = (Return todo, self).
Proof.
  intros Hpos Hget. unfold services.get_todo_by_id.
  replace (todo_id <=? 0) with false by (symmetry; apply Z.leb_gt; lia).
  unfold storage.bind, storage.get_todo_by_id. now rewrite Hget.
Qed.

Lemma service_get_None todo_id self :
  0 < todo_id -> Py.get (_todos self) todo_id = None ->
  services.get_todo_by_id todo_id self
  = (Raise (TodoNotFoundError todo_id), self).
Proof.
  intros Hpos Hget. unfold services.get_todo_by_id.
  replace (todo_id <=? 0) with false by (symmetry; apply Z.leb_gt; lia).
  unfold storage.bind, storage.get_todo_by_id. now rewrite Hget.
Qed.

Lemma service_get_Return_inv todo_id todo self self' :
  services.get_todo_by_id todo_id self = (Return todo, self') ->
  0 < todo_id /\ Py.get (_todos self) todo_id = Some todo /\ self' = self.
Proof.
  unfold services.get_todo_by_id. destruct (todo_id <=? 0) eqn:E.
  - discriminate.
  - apply Z.leb_gt in E. unfold storage.bind, storage.get_todo_by_id.
    destruct (Py.get (_todos self) todo_id); [|discriminate].
    intros [= -> ->]. auto.
Qed.

(** X5: in every reachable state the listing and the lookup agree: a todo
    is in the list [get_all_todos] returns exactly when [get_todo_by_id]
    of its id returns that very todo, and no two listed todos share an
    id. *)
Theorem listing_agrees_with_lookup
    (self : InMemoryTodoStorage) (Hreach : reachable self) :
  exists todos,
    services.get_all_todos self = (Return todos, self)
    /\ NoDup (map Todo.id todos)
    /\ (forall todo,
           In todo todos
           <-> services.get_todo_by_id (Todo.id todo) self
               = (Return todo, self)).
Proof.
  pose proof (reachable_wf _ Hreach) as Hwf.
  eexists. split; [reflexivity|]. split.
  - eapply Permutation_NoDup.
    + apply Permutation_map. apply sorted_reverse_perm.
    + rewrite values_ids by exact Hwf. now apply reachable_keys_NoDup.
  - intros todo. split.
    + intros Hin.
      eapply Permutation_in in Hin;
        [|apply Permutation_sym, sorted_reverse_perm].
      apply (stored_iff_lookup _ _ Hwf) in Hin.
      destruct (wf_get _ _ _ Hwf Hin) as (_ & _ & Hpos).
      now apply service_get_Some.
    + intros Hget. apply service_get_Return_inv in Hget.
      destruct Hget as (_ & Hget & _).
      eapply Permutation_in; [apply sorted_reverse_perm|].
      now apply stored_iff_lookup.
Qed.

Lemma listing_agrees_with_lookup_witness :
  exists todos,
    services.get_all_todos store_two = (Return todos, store_two)
    /\ NoDup (map Todo.id todos)
    /\ (forall todo,
           In todo todos
           <-> services.get_todo_by_id (Todo.id todo) store_two
               = (Return todo, store_two)).
Proof. exact (listing_agrees_with_lookup store_two reachable_store_two). Defined.

(** X6: in every reachable state an id at or above the counter has not been
    handed out and is not stored: updating it in the storage returns [None]
    and, when the id has at most 4300 decimal digits, looking it up and
    deleting it through the service raise [TodoNotFoundError]; the storage
    is as before in all three cases. *)
Theorem unissued_id_not_found
    (todo_id : Z) (self : InMemoryTodoStorage) (Hreach : reachable self)
    (Hid : _next_id self <= todo_id) :
  (todo_id < 10 ^ services.int_max_str_digits ->
   services.get_todo_by_id todo_id self
   = (Raise (TodoNotFoundError todo_id), self)
   /\ services.delete_todo todo_id self
      = (Raise (TodoNotFoundError todo_id), self))
  /\ (forall update_data,
         storage.update_todo todo_id update_data self = (Return None, self)).
Proof.
  pose proof (reachable_wf _ Hreach) as Hwf.
  assert (Hpos : 0 < todo_id) by (pose proof (wf_next _ Hwf); lia).
  assert (Hget : Py.get (_todos self) todo_id = None).
  { apply get_None_not_key. intros Hin.
    apply (wf_key_bound _ _ Hwf) in Hin. lia. }
  split.
  - intros _. split; [now apply service_get_None|].
    unfold services.delete_todo.
    replace (todo_id <=? 0) with false by (symmetry; apply Z.leb_gt; lia).
    unfold storage.bind, storage.delete_todo, Py.contains. now rewrite Hget.
  - intros update_data. unfold storage.update_todo. now rewrite Hget.
Qed.

Lemma unissued_id_not_found_witness :
  services.get_todo_by_id 999 store_two
  = (Raise (TodoNotFoundError 999), store_two).
Proof.
  refine (proj1 (proj1 (unissued_id_not_found 999 store_two
                          reachable_store_two _) _)).
  - vm_compute. discriminate.
  - vm_compute. reflexivity.
Defined.

(** * Further properties of the service *)

(** ** Creation, seen from the lookup *)

Lemma title_ok_strip title :
  Py.strip title <> [] -> Py.len (Py.strip title) <= 500 ->
  Py.utf8_encodable (Py.strip title) = true ->
  title_ok (Py.strip title) = true.
Proof.
  intros Hne Hlen Huni. unfold title_ok. rewrite Huni.
  cbn [andb]. apply andb_true_intro.
  split; [|now apply Z.leb_le].
  apply Z.leb_le. unfold Py.len. destruct (Py.strip title); [congruence|].
  simpl List.length. lia.
Qed.

Lemma truthy_nonempty (s : Py.str) : s <> [] -> Py.truthy s = true.
Proof. destruct s; [congruence | reflexivity]. Qed.

Lemma services_create_todo_eq title utcnow self :
  wf self -> Py.strip title <> [] -> Py.len (Py.strip title) <= 500 ->
  Py.utf8_encodable (Py.strip title) = true ->
  services.create_todo (TodoCreate.mk title) utcnow self
  = (Return (Todo.mk (_next_id self) (Py.strip title) false utcnow),
     storage.mk
       (_todos self
        ++ [(_next_id self,
             Todo.mk (_next_id self) (Py.strip title) false utcnow)])
       (_next_id self + 1)).
Proof.
  intros Hwf Hne Hlen Huni.
  pose proof (title_ok_strip _ Hne Hlen Huni) as Hok.
  unfold services.create_todo. cbn [TodoCreate.title].
  rewrite (truthy_nonempty _ Hne). cbn [negb].
  unfold TodoCreate.new. rewrite Hok.
  unfold storage.create_todo. cbn [TodoCreate.title].
  rewrite Todo_new_Return by exact Hok. cbn [_todos _next_id].
  rewrite set_absent by (now apply wf_next_id_fresh). reflexivity.
Qed.

Lemma get_app_fresh (d : Py.dict Todo.t) k todo other :
  ~ In k (Py.keys d) -> other <> k ->
  Py.get (d ++ [(k, todo)]) other = Py.get d other.
Proof.
  intros Hfresh Hne. rewrite <- set_absent by exact Hfresh.
  now apply get_set_other.
Qed.

(** X7: in every reachable state, after the service has created a todo from
    a title whose stripped form has 1 to 500 characters, none of them a
    surrogate, [get_todo_by_id] of the returned id returns the very todo
    [create_todo] returned; the lookup of every other id answers as it did
    before the creation; and the listing afterwards holds the new todo and
    the todos listed before. *)
Theorem create_todo_then_get_by_id
    (title : Py.str) (utcnow : Z) (self : InMemoryTodoStorage)
    (Hreach : reachable self)
    (Hnonblank : Py.strip title <> [])
    (Hlen : Py.len (Py.strip title) <= 500)
    (Hunicode : Py.utf8_encodable (Py.strip title) = true) :
  exists todo self',
    services.create_todo (TodoCreate.mk title) utcnow self
    = (Return todo, self')
    /\ services.get_todo_by_id (Todo.id todo) self' = (Return todo, self')
    /\ (forall other, other <> Todo.id todo ->
          fst (services.get_todo_by_id other self')
          = fst (services.get_todo_by_id other self))
    /\ (exists before afterwards,
           services.get_all_todos self = (Return before, self)
           /\ services.get_all_todos self' = (Return afterwards, self')
           /\ Permutation afterwards (todo :: before)).
Proof.
  pose proof (reachable_wf _ Hreach) as Hwf.
  pose proof (wf_next_id_fresh _ Hwf) as Hfresh.
  pose proof (wf_next _ Hwf) as Hpos.
  eexists. eexists.
  split; [now apply services_create_todo_eq|]. cbn [Todo.id].
  split.
  { apply service_get_Some; [exact Hpos|]. cbn [_todos].
    rewrite <- set_absent by exact Hfresh. apply get_set_same. }
  split.
  { intros other Hne. unfold services.get_todo_by_id.
    destruct (other <=? 0); [reflexivity|].
    unfold storage.bind, storage.get_todo_by_id. cbn [_todos].
    rewrite get_app_fresh by assumption.
    now destruct (Py.get (_todos self) other). }
  eexists. eexists. split; [reflexivity|]. split; [reflexivity|].
  cbn [_todos]. rewrite <- sorted_reverse_perm.
  unfold Py.values. rewrite map_app. cbn [map snd].
  rewrite <- sorted_reverse_perm.
  rewrite Permutation_app_comm. reflexivity.
Qed.

Lemma create_todo_then_get_by_id_witness :
  exists todo self',
    services.create_todo (TodoCreate.mk title_walk_dog) 5000 store_two
    = (Return todo, self')
    /\ services.get_todo_by_id (Todo.id todo) self' = (Return todo, self').
Proof.
  assert (H1 : Py.strip title_walk_dog <> []) by (vm_compute; discriminate).
  assert (H2 : Py.len (Py.strip title_walk_dog) <= 500)
    by (vm_compute; discriminate).
  assert (H3 : Py.utf8_encodable (Py.strip title_walk_dog) = true)
    by (vm_compute; reflexivity).
  destruct (create_todo_then_get_by_id title_walk_dog 5000 store_two
              reachable_store_two H1 H2 H3) as (todo & self' & Hc & Hg & _).
  exists todo, self'. split; assumption.
Defined.

(** ** What the storage does with a [TodoCreate] it cannot store *)

(** X8: in every reachable state the storage's [create_todo] leaves every
    stored todo where it was: when the title passes the validation of the
    [Todo] model (1 to 500 characters, none of them a surrogate) it returns
    a todo with the counter's value as id and adds it after the others;
    when it does not, the call raises pydantic's validation error and
    stores nothing; in both cases the counter has advanced by one, so the id
    of a failed creation is not handed out again. *)
Theorem storage_create_todo_keeps_stored_todos
    (todo_data : TodoCreate.t) (utcnow : Z) (self : InMemoryTodoStorage)
    (Hreach : reachable self) :
  let n := _next_id self in
  let todo := Todo.mk n (TodoCreate.title todo_data) false utcnow in
  storage.create_todo todo_data utcnow self
  = (if title_ok (TodoCreate.title todo_data)
     then (Return todo, storage.mk (_todos self ++ [(n, todo)]) (n + 1))
     else (Raise PydanticValidationError, storage.mk (_todos self) (n + 1)))
  /\ (forall other, other <> n ->
        Py.get (_todos (snd (storage.create_todo todo_data utcnow self)))
               other
        = Py.get (_todos self) other).
Proof.
  intros n todo. pose proof (reachable_wf _ Hreach) as Hwf.
  pose proof (wf_next_id_fresh _ Hwf) as Hfresh.
  assert (Heq : storage.create_todo todo_data utcnow self
                = (if title_ok (TodoCreate.title todo_data)
                   then (Return todo,
                         storage.mk (_todos self ++ [(n, todo)]) (n + 1))
                   else (Raise PydanticValidationError,
                         storage.mk (_todos self) (n + 1)))).
  { unfold storage.create_todo, Todo.new.
    destruct (title_ok (TodoCreate.title todo_data)); [|reflexivity].
    cbn [_todos _next_id]. now rewrite set_absent by exact Hfresh. }
  split; [exact Heq|]. intros other Hne. rewrite Heq.
  destruct (title_ok (TodoCreate.title todo_data)); cbn [snd _todos].
  - now apply get_app_fresh.
  - reflexivity.
Qed.

Lemma storage_create_todo_keeps_stored_todos_witness :
  storage.create_todo (TodoCreate.mk []) 0 store_two
  = (Raise PydanticValidationError, storage.mk (_todos store_two) 4).
Proof.
  exact (proj1 (storage_create_todo_keeps_stored_todos (TodoCreate.mk []) 0
                  store_two reachable_store_two)).
Defined.

(** ** Failures leave the store alone *)

Lemma storage_update_todo_unchanged todo_id update_data self :
  match fst (storage.update_todo todo_id update_data self) with
  | Return (Some _) => True
  | _ => snd (storage.update_todo todo_id update_data self) = self
  end.
Proof.
  unfold storage.update_todo.
  destruct (Py.get (_todos self) todo_id); [|reflexivity].
  now destruct (Todo.new _ _ _ _).
Qed.

(** X9: a call of the service's [create_todo], [update_todo] or
    [delete_todo] that raises, whatever it raises and in whatever state,
    leaves the storage exactly as it was, the id counter included. *)
Theorem service_failure_leaves_store_unchanged
    (self : InMemoryTodoStorage) :
  (forall todo_data utcnow e,
      fst (services.create_todo todo_data utcnow self) = Raise e ->
      snd (services.create_todo todo_data utcnow self) = self)
  /\ (forall todo_id update_data e,
         fst (services.update_todo todo_id update_data self) = Raise e ->
         snd (services.update_todo todo_id update_data self) = self)
  /\ (forall todo_id e,
         fst (services.delete_todo todo_id self) = Raise e ->
         snd (services.delete_todo todo_id self) = self).
Proof.
  split; [|split].
  - intros todo_data utcnow e. unfold services.create_todo.
    destruct (negb _); [reflexivity|].
    unfold TodoCreate.new.
    destruct (title_ok (Py.strip (TodoCreate.title todo_data))) eqn:Hok;
      [|reflexivity].
    unfold storage.create_todo. cbn [TodoCreate.title].
    rewrite Todo_new_Return by exact Hok. discriminate.
  - intros todo_id update_data e. unfold services.update_todo.
    destruct (todo_id <=? 0); [reflexivity|].
    destruct (negb _); [reflexivity|].
    destruct (TodoUpdate.title update_data) as [s|].
    + destruct (negb _); [reflexivity|].
      unfold storage.bind.
      pose proof (storage_update_todo_unchanged todo_id
                    (TodoUpdate.assign_title (Some (Py.strip s)) update_data)
                    self) as H.
      destruct (storage.update_todo _ _ self) as [[[t|]|e'] s']; cbn in *;
        intros; try discriminate; assumption.
    + unfold storage.bind.
      pose proof (storage_update_todo_unchanged todo_id update_data self) as H.
      destruct (storage.update_todo _ _ self) as [[[t|]|e'] s']; cbn in *;
        intros; try discriminate; assumption.
  - intros todo_id e. unfold services.delete_todo.
    destruct (todo_id <=? 0); [reflexivity|].
    unfold storage.bind, storage.delete_todo.
    destruct (Py.contains _ _); cbn; [discriminate | reflexivity].
Qed.

Lemma service_failure_leaves_store_unchanged_witness :
  snd (services.update_todo 1 patch_null_title store_two) = store_two
  /\ snd (services.create_todo (TodoCreate.mk title_501) 0 store_two)
     = store_two
  /\ snd (services.delete_todo 9 store_two) = store_two.
Proof.
  destruct (service_failure_leaves_store_unchanged store_two)
    as (Hc & Hu & Hd).
  split; [|split].
  - apply (Hu 1 patch_null_title PydanticValidationError). reflexivity.
  - apply (Hc (TodoCreate.mk title_501) 0 PydanticValidationError).
    vm_compute. reflexivity.
  - apply (Hd 9 (TodoNotFoundError 9)). reflexivity.
Defined.

(** ** Stripped titles *)

Lemma lstrip_fixed c (s : Py.str) :
  Py.isspace c = false -> Py.lstrip (c :: s) = c :: s.
Proof. intros H. simpl. now rewrite H. Qed.

Lemma lstrip_idempotent s : Py.lstrip (Py.lstrip s) = Py.lstrip s.
Proof.
  pose proof (lstrip_head s) as H.
  destruct (Py.lstrip s) as [|c r]; [reflexivity | now apply lstrip_fixed].
Qed.

Lemma lstrip_split s :
  exists spaces, s = spaces ++ Py.lstrip s.
Proof.
  induction s as [|c s [p IH]]; simpl.
  - now exists [].
  - destruct (Py.isspace c).
    + exists (c :: p). simpl. now rewrite <- IH.
    + now exists [].
Qed.

Lemma strip_no_leading_space s : Py.lstrip (Py.strip s) = Py.strip s.
Proof.
  unfold Py.strip, Py.rstrip.
  pose proof (lstrip_head s) as Hhead.
  destruct (lstrip_split (rev (Py.lstrip s))) as [p Hp].
  apply (f_equal (@rev N)) in Hp. rewrite rev_involutive, rev_app_distr in Hp.
  destruct (rev (Py.lstrip (rev (Py.lstrip s)))) as [|c r]; [reflexivity|].
  rewrite Hp in Hhead. simpl in Hhead. now apply lstrip_fixed.
Qed.

Lemma strip_no_trailing_space s :
  Py.lstrip (rev (Py.strip s)) = rev (Py.strip s).
Proof.
  unfold Py.strip, Py.rstrip. rewrite rev_involutive. apply lstrip_idempotent.
Qed.

Lemma strip_idempotent s : Py.strip (Py.strip s) = Py.strip s.
Proof.
  unfold Py.strip at 1. unfold Py.rstrip.
  rewrite strip_no_leading_space, strip_no_trailing_space.
  apply rev_involutive.
Qed.

Lemma clean_title_strip s : Py.strip s <> [] -> clean_title (Py.strip s).
Proof. intros H. split; [apply strip_idempotent | exact H]. Qed.

(** ** Updating through the service *)

Lemma is_set_assign_title v u :
  TodoUpdate.is_set "title" (TodoUpdate.assign_title v u) = true.
Proof.
  unfold TodoUpdate.assign_title.
  destruct (TodoUpdate.is_set "title" u) eqn:E.
  - unfold TodoUpdate.is_set in *. cbn [TodoUpdate.model_fields_set]. exact E.
  - reflexivity.
Qed.

Lemma is_set_completed_assign_title v u :
  TodoUpdate.is_set "completed" (TodoUpdate.assign_title v u)
  = TodoUpdate.is_set "completed" u.
Proof.
  unfold TodoUpdate.assign_title.
  destruct (TodoUpdate.is_set "title" u); reflexivity.
Qed.

(** X10: the checks of the service's [update_todo] come in a fixed order and
    each failure leaves the storage as it was: an id that is zero or
    negative raises [ValidationError] whatever the patch; for a positive id
    a patch with neither title nor flag raises [ValidationError] whether or
    not the id is stored, and so does a patch whose title is blank; only a
    patch that passes these checks is looked up, and an id of at most 4300
    decimal digits that is not stored then raises [TodoNotFoundError]. *)
Theorem service_update_todo_rejections
    (todo_id : Z) (update_data : TodoUpdate.t) (self : InMemoryTodoStorage) :
  (todo_id <= 0 ->
   services.update_todo todo_id update_data self
   = (Raise (ValidationError services.msg_positive_id), self))
  /\ (0 < todo_id ->
      TodoUpdate.title update_data = None ->
      TodoUpdate.completed update_data = None ->
      services.update_todo todo_id update_data self
      = (Raise (ValidationError services.msg_no_field), self))
  /\ (forall s,
         0 < todo_id ->
         TodoUpdate.title update_data = Some s -> Py.strip s = [] ->
         services.update_todo todo_id update_data self
         = (Raise (ValidationError services.msg_blank_title), self))
  /\ (0 < todo_id < 10 ^ services.int_max_str_digits ->
      Py.get (_todos self) todo_id = None ->
      match TodoUpdate.title update_data with
      | Some s => Py.strip s <> []
      | None => TodoUpdate.completed update_data <> None
      end ->
      services.update_todo todo_id update_data self
      = (Raise (TodoNotFoundError todo_id), self)).
Proof.
  unfold services.update_todo. repeat split.
  - intros H. apply Z.leb_le in H. now rewrite H.
  - intros H Ht Hc. apply Z.leb_gt in H. now rewrite H, Ht, Hc.
  - intros s H Ht Hs. apply Z.leb_gt in H. now rewrite H, Ht, Hs.
  - intros [H _] Hget Hpatch. apply Z.leb_gt in H. rewrite H.
    destruct (TodoUpdate.title update_data) as [s|].
    + cbn [services.is_not_None orb negb].
      rewrite (truthy_nonempty _ Hpatch). cbn [negb].
      unfold storage.bind, storage.update_todo. now rewrite Hget.
    + destruct (TodoUpdate.completed update_data); [|congruence].
      cbn [services.is_not_None orb negb].
      unfold storage.bind, storage.update_todo. now rewrite Hget.
Qed.

Lemma service_update_todo_rejections_witness :
  services.update_todo 0 patch_null_title store_two
  = (Raise (ValidationError services.msg_positive_id), store_two)
  /\ services.update_todo 7 (TodoUpdate.mk None None []) store_two
     = (Raise (ValidationError services.msg_no_field), store_two)
  /\ services.update_todo 7 (TodoUpdate.mk None (Some [32]%N) ["title"%string])
                          store_two
     = (Raise (ValidationError services.msg_blank_title), store_two)
  /\ services.update_todo 7 patch_null_title store_two
     = (Raise (TodoNotFoundError 7), store_two).
Proof.
  split; [|split; [|split]].
  - apply (proj1 (service_update_todo_rejections 0 patch_null_title store_two)).
    lia.
  - apply (proj1 (proj2 (service_update_todo_rejections
                           7 (TodoUpdate.mk None None []) store_two)));
      [lia | reflexivity | reflexivity].
  - apply (proj1 (proj2 (proj2 (service_update_todo_rejections
             7 (TodoUpdate.mk None (Some [32]%N) ["title"%string]) store_two)))
             [32]%N); [lia | reflexivity | reflexivity].
  - apply (proj2 (proj2 (proj2 (service_update_todo_rejections
             7 patch_null_title store_two))));
      [split; [lia | vm_compute; reflexivity] | reflexivity |].
    cbn. discriminate.
Defined.

(** X11: in every reachable state, for an id the store holds and a patch
    with a title whose stripped form has 1 to 500 characters, none of them
    a surrogate (and whose flag, when explicitly set, is a boolean), the
    service's [update_todo]
    returns and stores the todo with the stripped title, never the raw one;
    the flag is taken from the patch when set and kept otherwise, id and
    [created_at] are kept, and every other id maps to what it did. *)
Theorem service_update_todo_stores_stripped_title
    (todo_id : Z) (update_data : TodoUpdate.t) (s : Py.str)
    (current : Todo.t) (self : InMemoryTodoStorage)
    (Hreach : reachable self)
    (Hget : Py.get (_todos self) todo_id = Some current)
    (Htitle : TodoUpdate.title update_data = Some s)
    (Hnonblank : Py.strip s <> [])
    (Hlen : Py.len (Py.strip s) <= 500)
    (Hunicode : Py.utf8_encodable (Py.strip s) = true)
    (Hflag : TodoUpdate.is_set "completed" update_data = true ->
             TodoUpdate.completed update_data <> None) :
  let updated :=
    Todo.mk (Todo.id current) (Py.strip s)
      (match TodoUpdate.is_set "completed" update_data,
             TodoUpdate.completed update_data with
       | true, Some b => b
       | _, _ => Todo.completed current
       end)
      (Todo.created_at current) in
  let self' := storage.mk (Py.set (_todos self) todo_id updated)
                          (_next_id self) in
  services.update_todo todo_id update_data self = (Return updated, self')
  /\ services.get_todo_by_id todo_id self' = (Return updated, self')
  /\ (forall other, other <> todo_id ->
        Py.get (_todos self') other = Py.get (_todos self) other).
Proof.
  intros updated self'. pose proof (reachable_wf _ Hreach) as Hwf.
  destruct (wf_get _ _ _ Hwf Hget) as (_ & Hcur & Hpos).
  pose proof (title_ok_strip _ Hnonblank Hlen Hunicode) as Hok.
  set (u' := TodoUpdate.assign_title (Some (Py.strip s)) update_data).
  assert (Hst : storable u' = true).
  { unfold storable, u'.
    rewrite is_set_assign_title, is_set_completed_assign_title.
    cbn [TodoUpdate.assign_title TodoUpdate.title TodoUpdate.completed].
    rewrite Hok. cbn [andb].
    destruct (TodoUpdate.is_set "completed" update_data); [|reflexivity].
    destruct (TodoUpdate.completed update_data); [reflexivity|].
    exfalso. now apply Hflag. }
  assert (Hpatched : patched u' current = updated).
  { unfold patched, updated, u'.
    rewrite is_set_assign_title, is_set_completed_assign_title.
    reflexivity. }
  split.
  { unfold services.update_todo.
    replace (todo_id <=? 0) with false by (symmetry; apply Z.leb_gt; lia).
    rewrite Htitle. cbn [services.is_not_None orb negb].
    rewrite (truthy_nonempty _ Hnonblank). cbn [negb].
    unfold storage.bind. fold u'.
    rewrite (update_todo_storable _ _ _ _ Hget Hcur Hst), Hpatched.
    reflexivity. }
  split.
  { apply service_get_Some; [exact Hpos|]. apply get_set_same. }
  intros other Hne. now apply get_set_other.
Qed.

Lemma service_update_todo_stores_stripped_title_witness :
  services.update_todo 2
    (TodoUpdate.mk None (Some (32%N :: title_buy_milk ++ [9; 10]%N))
                   ["title"%string])
    store_two
  = (Return (Todo.mk 2 title_buy_milk false 1000),
     storage.mk [(1, Todo.mk 1 title_buy_milk true 1000);
                 (2, Todo.mk 2 title_buy_milk false 1000)] 3).
Proof.
  refine (proj1 (service_update_todo_stores_stripped_title 2
                   (TodoUpdate.mk None (Some (32%N :: title_buy_milk ++ [9; 10]%N))
                                  ["title"%string])
                   (32%N :: title_buy_milk ++ [9; 10]%N)
                   (Todo.mk 2 title_walk_dog false 1000) store_two
                   reachable_store_two eq_refl eq_refl _ _ _ _)).
  - vm_compute. discriminate.
  - vm_compute. discriminate.
  - vm_compute. reflexivity.
  - vm_compute. discriminate.
Defined.

(** ** The titles a service stores *)

Lemma snd_bind_ret {A B : Type} (m : method A) (k : A -> method B) self :
  (forall a s, snd (k a s) = s) ->
  snd (storage.bind m k self) = snd (m self).
Proof.
  intros Hk. unfold storage.bind.
  destruct (m self) as [[a|e] s']; [apply Hk | reflexivity].
Qed.

(** A call of the service leaves the storage as it was or as one call of
    the storage leaves it. *)
Lemma service_after_storage c self :
  service_after c self = self \/ exists c', service_after c self = after c' self.
Proof.
  destruct c; cbn [service_after after].
  - unfold services.create_todo. destruct (negb _); [now left|].
    destruct (TodoCreate.new _) as [d|e]; [|now left].
    right. now exists (Call_create_todo d utcnow).
  - unfold services.update_todo. destruct (todo_id <=? 0); [now left|].
    destruct (negb _); [now left|].
    destruct (TodoUpdate.title update_data) as [s|].
    + destruct (negb _); [now left|]. right.
      exists (Call_update_todo todo_id
                (TodoUpdate.assign_title (Some (Py.strip s)) update_data)).
      apply snd_bind_ret. now intros [t|] s0.
    + right. exists (Call_update_todo todo_id update_data).
      apply snd_bind_ret. now intros [t|] s0.
  - unfold services.delete_todo. destruct (todo_id <=? 0); [now left|].
    right. exists (Call_delete_todo todo_id).
    apply snd_bind_ret. now intros [|] s0.
  - right. exists Call_mark_all_complete. now apply snd_bind_ret.
  - right. exists Call_delete_completed_todos. now apply snd_bind_ret.
  - right. exists Call_delete_all_todos. now apply snd_bind_ret.
Qed.

Lemma service_reachable_reachable self :
  service_reachable self -> reachable self.
Proof.
  induction 1 as [|c self _ IH]; [exact reachable_init|].
  destruct (service_after_storage c self) as [-> | [c' ->]];
    [exact IH | now apply reachable_call].
Defined.

Lemma service_reachable_run calls self :
  service_reachable self -> service_reachable (service_run calls self).
Proof.
  revert self. induction calls as [|c calls IH]; intros self H; simpl.
  - exact H.
  - apply IH. now apply service_reachable_call.
Defined.

Lemma service_reachable_store_two : service_reachable service_store_two.
Proof. apply service_reachable_run. exact service_reachable_init. Defined.

Lemma storage_update_todo_title todo_id update_data self todo self' :
  storage.update_todo todo_id update_data self = (Return (Some todo), self') ->
  exists current,
    Py.get (_todos self) todo_id = Some current
    /\ self' = storage.mk (Py.set (_todos self) todo_id todo) (_next_id self)
    /\ (if TodoUpdate.is_set "title" update_data
        then TodoUpdate.title update_data = Some (Todo.title todo)
        else Todo.title todo = Todo.title current).
Proof.
  unfold storage.update_todo.
  destruct (Py.get (_todos self) todo_id) as [current|]; [|discriminate].
  destruct (Todo.new _ _ _ _) as [t|e] eqn:N; [|discriminate].
  intros [= -> <-]. exists current. split; [reflexivity|]. split; [reflexivity|].
  apply Todo_new_inv in N. destruct N as (s & b & Hs & _ & _ & ->).
  unfold TodoUpdate.model_dump_exclude_unset in Hs.
  cbn [TodoUpdate.d_title] in Hs.
  destruct (TodoUpdate.is_set "title" update_data);
    cbn [TodoUpdate.dict_get] in Hs; cbn [Todo.title]; congruence.
Qed.

Lemma clean_after c self :
  wf self -> Forall clean_entry (_todos self) ->
  Forall clean_entry (_todos (service_after c self)).
Proof.
  intros Hwf Hclean. destruct c; cbn [service_after].
  - unfold services.create_todo.
    destruct (Py.strip (TodoCreate.title todo_data)) as [|c r] eqn:Hs;
      [exact Hclean|]. cbn [Py.truthy negb]. rewrite <- Hs.
    unfold TodoCreate.new.
    destruct (title_ok (Py.strip (TodoCreate.title todo_data))) eqn:Hok;
      [|exact Hclean].
    unfold storage.create_todo. cbn [TodoCreate.title].
    rewrite Todo_new_Return by exact Hok. cbn [snd _todos _next_id].
    apply Forall_set; [exact Hclean|]. unfold clean_entry. cbn.
    apply clean_title_strip. rewrite Hs. discriminate.
  - unfold services.update_todo. destruct (todo_id <=? 0); [exact Hclean|].
    destruct (negb _); [exact Hclean|].
    destruct (TodoUpdate.title update_data) as [s|] eqn:Ht.
    + destruct (Py.strip s) as [|c r] eqn:Hs; [exact Hclean|].
      cbn [Py.truthy negb]. rewrite <- Hs.
      rewrite snd_bind_ret by (now intros [t|] s0).
      destruct (storage.update_todo todo_id
                  (TodoUpdate.assign_title (Some (Py.strip s)) update_data) self)
        as [[[t|]|e] s'] eqn:U.
      * apply storage_update_todo_title in U.
        destruct U as (current & _ & -> & Htitle).
        rewrite is_set_assign_title in Htitle.
        cbn [TodoUpdate.assign_title TodoUpdate.title] in Htitle.
        injection Htitle as Htitle. cbn [snd _todos].
        apply Forall_set; [exact Hclean|]. unfold clean_entry. cbn [snd].
        rewrite <- Htitle. apply clean_title_strip. rewrite Hs. discriminate.
      * pose proof (storage_update_todo_unchanged todo_id
                      (TodoUpdate.assign_title (Some (Py.strip s)) update_data)
                      self) as H.
        rewrite U in H. cbn in H. cbn [snd]. now rewrite H.
      * pose proof (storage_update_todo_unchanged todo_id
                      (TodoUpdate.assign_title (Some (Py.strip s)) update_data)
                      self) as H.
        rewrite U in H. cbn in H. cbn [snd]. now rewrite H.
    + rewrite snd_bind_ret by (now intros [t|] s0).
      destruct (storage.update_todo todo_id update_data self)
        as [[[t|]|e] s'] eqn:U.
      * apply storage_update_todo_title in U.
        destruct U as (current & Hget & -> & Htitle). cbn [snd _todos].
        apply Forall_set; [exact Hclean|]. unfold clean_entry. cbn [snd].
        destruct (TodoUpdate.is_set "title" update_data); [congruence|].
        rewrite Htitle. apply get_Some_In in Hget.
        rewrite Forall_forall in Hclean. exact (Hclean _ Hget).
      * pose proof (storage_update_todo_unchanged todo_id update_data self) as H.
        rewrite U in H. cbn in H. cbn [snd]. now rewrite H.
      * pose proof (storage_update_todo_unchanged todo_id update_data self) as H.
        rewrite U in H. cbn in H. cbn [snd]. now rewrite H.
  - unfold services.delete_todo. destruct (todo_id <=? 0); [exact Hclean|].
    rewrite snd_bind_ret by (now intros [|] s0).
    unfold storage.delete_todo. destruct (Py.contains _ _); cbn [snd _todos];
      [now apply Forall_del | exact Hclean].
  - unfold services.mark_all_complete. rewrite snd_bind_ret by reflexivity.
    rewrite mark_all_complete_spec by exact Hwf. cbn [snd _todos].
    apply Forall_map. eapply Forall_impl; [|exact Hclean].
    intros [k todo]. unfold clean_entry, mark_entry, completed_version.
    cbn [snd]. now destruct (Todo.completed todo).
  - unfold services.delete_completed_todos. rewrite snd_bind_ret by reflexivity.
    rewrite delete_completed_spec by exact Hwf. cbn [snd _todos].
    apply Forall_forall. intros kv Hin. apply filter_In in Hin.
    rewrite Forall_forall in Hclean. now apply Hclean.
  - constructor.
Qed.

Lemma service_reachable_clean self :
  service_reachable self -> Forall clean_entry (_todos self).
Proof.
  induction 1 as [|c self Hreach IH]; [constructor|].
  apply clean_after; [|exact IH].
  apply reachable_wf. now apply service_reachable_reachable.
Qed.

(** X12: in a storage that only the service has called, every todo the
    listing returns has a title that is its own stripped form, is not
    empty and has at most 500 characters: no call of the service, with
    whatever arguments, gets a blank or untrimmed title into the store. *)
Theorem service_stores_only_stripped_titles
    (self : InMemoryTodoStorage) (Hreach : service_reachable self) :
  exists todos,
    services.get_all_todos self = (Return todos, self)
    /\ Forall (fun todo =>
                 Py.strip (Todo.title todo) = Todo.title todo
                 /\ Todo.title todo <> []
                 /\ 1 <= Py.len (Todo.title todo) <= 500)
              todos.
Proof.
  eexists. split; [reflexivity|].
  eapply Permutation_Forall; [apply sorted_reverse_perm|].
  unfold Py.values. apply Forall_map.
  pose proof (service_reachable_clean _ Hreach) as Hclean.
  pose proof (wf_entries _ (reachable_wf _
                (service_reachable_reachable _ Hreach))) as He.
  rewrite Forall_forall in *. intros kv Hin.
  destruct (Hclean _ Hin) as [Hs Hne]. destruct (He _ Hin) as [_ Hlen].
  apply title_ok_bounds in Hlen. destruct Hlen as [Hlen _]. auto.
Qed.

Lemma service_stores_only_stripped_titles_witness :
  exists todos,
    services.get_all_todos service_store_two
    = (Return todos, service_store_two)
    /\ Forall (fun todo =>
                 Py.strip (Todo.title todo) = Todo.title todo
                 /\ Todo.title todo <> []
                 /\ 1 <= Py.len (Todo.title todo) <= 500)
              todos.
Proof.
  exact (service_stores_only_stripped_titles service_store_two
           service_reachable_store_two).
Defined.

(** ** Deleting everything *)

(** X13: in every reachable state [delete_all_todos] returns the number of
    todos the store held, which is the total the statistics reported, and
    leaves an empty store: the listing is empty and no id is found any
    more.  The counter is kept, so the next todo the service creates (from
    a title whose stripped form has 1 to 500 characters, none of them a
    surrogate) gets an id above every id that was deleted. *)
Theorem delete_all_todos_empties_store
    (self : InMemoryTodoStorage) (Hreach : reachable self) :
  let n := Z.of_nat (List.length (_todos self)) in
  let self' := storage.mk [] (_next_id self) in
  (exists message,
      services.delete_all_todos self = (Return (mk_bulk message n), self'))
  /\ (exists stats,
         services.get_todo_stats self = (Return stats, self)
         /\ total stats = n)
  /\ services.get_all_todos self' = (Return [], self')
  /\ (forall todo_id, exists e,
         services.get_todo_by_id todo_id self' = (Raise e, self'))
  /\ (forall title utcnow,
         Py.strip title <> [] -> Py.len (Py.strip title) <= 500 ->
         Py.utf8_encodable (Py.strip title) = true ->
         exists todo self'',
           services.create_todo (TodoCreate.mk title) utcnow self'
           = (Return todo, self'')
           /\ Forall (fun k => k < Todo.id todo) (Py.keys (_todos self))).
Proof.
  intros n self'. pose proof (reachable_wf _ Hreach) as Hwf.
  split; [eexists; reflexivity|]. split.
  { eexists. split; [apply get_todo_stats_eq|]. cbn [total].
    rewrite <- (Permutation_length (sorted_reverse_perm _ _)).
    unfold Py.values. now rewrite length_map. }
  split; [reflexivity|]. split.
  { intros todo_id. unfold services.get_todo_by_id.
    destruct (todo_id <=? 0); eexists; reflexivity. }
  intros title utcnow Hne Hlen Huni. eexists. eexists. split.
  - apply services_create_todo_eq; [|exact Hne | exact Hlen | exact Huni].
    exact (wf_delete_all _ Hwf).
  - cbn [Todo.id self' _next_id]. eapply Forall_impl; [|apply (wf_bound _ Hwf)].
    cbn. intros; lia.
Qed.

Lemma delete_all_todos_empties_store_witness :
  exists message,
    services.delete_all_todos store_two
    = (Return (mk_bulk message 2), storage.mk [] 3).
Proof.
  exact (proj1 (delete_all_todos_empties_store store_two reachable_store_two)).
Defined.

(** * Further properties of the route layer *)

Lemma snd_respond {A : Type} (success : A -> routes.Response)
    (nf v : bool) (failed : string) (m : method A) self :
  snd (routes.respond success nf v failed m self) = snd (m self).
Proof.
  unfold routes.respond. now destruct (m self) as [[a|e] s'].
Qed.

Lemma service_get_state todo_id self :
  snd (services.get_todo_by_id todo_id self) = self.
Proof.
  unfold services.get_todo_by_id. destruct (todo_id <=? 0); [reflexivity|].
  unfold storage.bind, storage.get_todo_by_id.
  now destruct (Py.get (_todos self) todo_id).
Qed.

(** ** The id endpoints *)

(** X14: in every state of the store, called with an id below 10^4300 (an
    id of at most 4300 decimal digits, or a negative one), the endpoint
    [get_todo] leaves the store as it was and answers 400 with the
    service's message for an id that is zero or negative, 404 with the id
    in the detail for a positive id that is not stored, and 200 with the
    stored todo otherwise; for such an id it never answers 500. *)
Theorem route_get_todo_answers
    (todo_id : Z) (self : InMemoryTodoStorage)
    (Hdigits : todo_id < 10 ^ services.int_max_str_digits) :
  routes.get_todo todo_id self
  = (if todo_id <=? 0
     then routes.HTTPException 400 services.msg_positive_id
     else match Py.get (_todos self) todo_id with
          | Some todo => routes.mk_response 200 (routes.TodoJson todo)
          | None =>
              routes.HTTPException 404
                ("Todo with ID " ++ services.str_of_int todo_id
                 ++ " not found")
          end,
     self)
  /\ routes.status_code (fst (routes.get_todo todo_id self)) <> 500.
Proof.
  assert (H : routes.get_todo todo_id self
              = (if todo_id <=? 0
                 then routes.HTTPException 400 services.msg_positive_id
                 else match Py.get (_todos self) todo_id with
                      | Some todo => routes.mk_response 200 (routes.TodoJson todo)
                      | None =>
                          routes.HTTPException 404
                            ("Todo with ID " ++ services.str_of_int todo_id
                             ++ " not found")
                      end,
                 self)).
  { unfold routes.get_todo, routes.respond, services.get_todo_by_id.
    destruct (todo_id <=? 0); [reflexivity|].
    unfold storage.bind, storage.get_todo_by_id.
    now destruct (Py.get (_todos self) todo_id). }
  split; [exact H|]. rewrite H. cbn [fst].
  destruct (todo_id <=? 0); [discriminate|].
  destruct (Py.get (_todos self) todo_id); discriminate.
Qed.

Lemma route_get_todo_answers_witness :
  routes.get_todo 7 store_two
  = (routes.HTTPException 404 "Todo with ID 7 not found", store_two)
  /\ routes.get_todo 2 store_two
     = (routes.mk_response 200
          (routes.TodoJson (Todo.mk 2 title_walk_dog false 1000)), store_two).
Proof.
  split.
  - refine (proj1 (route_get_todo_answers 7 store_two _)).
    vm_compute. reflexivity.
  - refine (proj1 (route_get_todo_answers 2 store_two _)).
    vm_compute. reflexivity.
Defined.

(** X15: in every state of the store, for a positive id that is stored, the
    endpoint [delete_todo] answers 204 without content; after it the
    endpoint [get_todo] answers 404 for that id, and so does a second
    [delete_todo], which changes nothing. *)
Theorem route_delete_todo_then_get
    (todo_id : Z) (self : InMemoryTodoStorage)
    (Hpos : 0 < todo_id)
    (Hstored : Py.contains (_todos self) todo_id = true) :
  let self' := storage.mk (Py.del (_todos self) todo_id) (_next_id self) in
  let not_found :=
    routes.HTTPException 404
      ("Todo with ID " ++ services.str_of_int todo_id ++ " not found") in
  routes.delete_todo todo_id self
  = (routes.mk_response 204 routes.NoContent, self')
  /\ routes.get_todo todo_id self' = (not_found, self')
  /\ routes.delete_todo todo_id self' = (not_found, self').
Proof.
  intros self' not_found.
  assert (Hid : (todo_id <=? 0) = false) by (apply Z.leb_gt; lia).
  assert (Hgone : Py.get (_todos self') todo_id = None)
    by apply get_del_same.
  split; [|split].
  - unfold routes.delete_todo, routes.respond, services.delete_todo.
    rewrite Hid. unfold storage.bind, storage.delete_todo.
    now rewrite Hstored.
  - unfold routes.get_todo, routes.respond.
    now rewrite (service_get_None _ _ Hpos Hgone).
  - unfold routes.delete_todo, routes.respond, services.delete_todo.
    rewrite Hid. unfold storage.bind, storage.delete_todo, Py.contains.
    now rewrite Hgone.
Qed.

Lemma route_delete_todo_then_get_witness :
  routes.delete_todo 1 store_two
  = (routes.mk_response 204 routes.NoContent,
     storage.mk [(2, Todo.mk 2 title_walk_dog false 1000)] 3)
  /\ routes.get_todo 1 (storage.mk [(2, Todo.mk 2 title_walk_dog false 1000)] 3)
     = (routes.HTTPException 404 "Todo with ID 1 not found",
        storage.mk [(2, Todo.mk 2 title_walk_dog false 1000)] 3).
Proof.
  destruct (route_delete_todo_then_get 1 store_two) as (H1 & H2 & _).
  - lia.
  - reflexivity.
  - split; [exact H1 | exact H2].
Defined.

(** ** Creation through the endpoint *)

(** X16: in every reachable state the endpoint [create_todo] answers 400
    with the service's message and leaves the store as it was when the
    title is blank; 201 with the created todo, whose title is the stripped
    one, when the stripped title is not blank and passes the validation of
    the model (at most 500 characters, none of them a surrogate); and 500
    with its fixed detail, the store again as it was, when the stripped
    title is not blank and fails that validation. *)
Theorem route_create_todo_answers
    (todo_data : TodoCreate.t) (utcnow : Z) (self : InMemoryTodoStorage)
    (Hreach : reachable self) :
  let stripped := Py.strip (TodoCreate.title todo_data) in
  routes.create_todo todo_data utcnow self
  = (if negb (Py.truthy stripped)
     then (routes.HTTPException 400 services.msg_blank_title, self)
     else if title_ok stripped
     then (routes.mk_response 201
             (routes.TodoJson (Todo.mk (_next_id self) stripped false utcnow)),
           storage.mk
             (_todos self
              ++ [(_next_id self,
                   Todo.mk (_next_id self) stripped false utcnow)])
             (_next_id self + 1))
     else (routes.HTTPException 500 "Failed to create todo", self)).
Proof.
  intros stripped. pose proof (reachable_wf _ Hreach) as Hwf.
  unfold routes.create_todo, routes.respond.
  destruct todo_data as [title]. cbn [TodoCreate.title] in stripped.
  destruct (Py.truthy stripped) eqn:Ht; cbn [negb].
  - assert (Hne : Py.strip title <> []).
    { intros H. unfold stripped in Ht. now rewrite H in Ht. }
    destruct (title_ok stripped) eqn:Hl.
    + apply title_ok_bounds in Hl. destruct Hl as [[_ Hl] Hu].
      now rewrite (services_create_todo_eq _ utcnow _ Hwf Hne Hl Hu).
    + unfold services.create_todo. cbn [TodoCreate.title]. fold stripped.
      rewrite Ht. cbn [negb]. unfold TodoCreate.new.
      rewrite Hl. reflexivity.
  - unfold services.create_todo. cbn [TodoCreate.title]. fold stripped.
    rewrite Ht. reflexivity.
Qed.

Lemma route_create_todo_answers_witness :
  routes.create_todo (TodoCreate.mk [32; 32]%N) 0 store_two
  = (routes.HTTPException 400 services.msg_blank_title, store_two)
  /\ routes.create_todo (TodoCreate.mk (32%N :: title_buy_milk)) 7 store_two
     = (routes.mk_response 201
          (routes.TodoJson (Todo.mk 3 title_buy_milk false 7)),
        storage.mk
          (_todos store_two ++ [(3, Todo.mk 3 title_buy_milk false 7)]) 4)
  /\ routes.create_todo (TodoCreate.mk title_surrogate) 7 store_two
     = (routes.HTTPException 500 "Failed to create todo", store_two).
Proof.
  split; [|split].
  - exact (route_create_todo_answers (TodoCreate.mk [32; 32]%N) 0 store_two
             reachable_store_two).
  - exact (route_create_todo_answers (TodoCreate.mk (32%N :: title_buy_milk))
             7 store_two reachable_store_two).
  - exact (route_create_todo_answers (TodoCreate.mk title_surrogate) 7
             store_two reachable_store_two).
Defined.

(** ** The endpoints without arguments *)

(** X17: in every reachable state the listing, the statistics and the three
    bulk endpoints answer 200; none of them can answer an error. *)
Theorem route_listing_and_bulk_answer_200
    (self : InMemoryTodoStorage) (Hreach : reachable self) :
  routes.status_code (fst (routes.get_todos self)) = 200
  /\ routes.status_code (fst (routes.get_todo_stats self)) = 200
  /\ routes.status_code (fst (routes.mark_all_complete self)) = 200
  /\ routes.status_code (fst (routes.delete_completed_todos self)) = 200
  /\ routes.status_code (fst (routes.delete_all_todos self)) = 200.
Proof.
  pose proof (reachable_wf _ Hreach) as Hwf.
  split; [reflexivity|]. split; [reflexivity|]. split.
  - unfold routes.mark_all_complete, routes.respond,
      services.mark_all_complete, storage.bind.
    now rewrite (mark_all_complete_spec _ Hwf).
  - split; reflexivity.
Qed.

Lemma route_listing_and_bulk_answer_200_witness :
  routes.status_code (fst (routes.mark_all_complete store_two)) = 200.
Proof.
  exact (proj1 (proj2 (proj2 (route_listing_and_bulk_answer_200 store_two
                                reachable_store_two)))).
Defined.

(** ** The router *)

Lemma find_route_Full routes m path partial r params :
  routes.find_route routes m path partial = routes.Full r params ->
  In r routes
  /\ routes.match_path (routes.route_path r) path = Some params
  /\ routes.route_method r = m.
Proof.
  revert partial. induction routes as [|r0 routes IH]; intros partial; simpl.
  - destruct partial; discriminate.
  - destruct (routes.match_path (routes.route_path r0) path) as [ps|] eqn:M.
    + destruct (routes.method_eqb (routes.route_method r0) m) eqn:E.
      * intros [= <- <-]. repeat split; [now left | exact M |].
        destruct (routes.route_method r0), m; (reflexivity || discriminate).
      * intros H. destruct (IH _ H) as (? & ? & ?). auto.
    + intros H. destruct (IH _ H) as (? & ? & ?). auto.
Qed.

Lemma snd_with_todo_id params (k : Z -> routes.handler) self :
  (forall todo_id, snd (k todo_id self) = self) ->
  snd (routes.with_todo_id params k self) = self.
Proof.
  intros Hk. unfold routes.with_todo_id.
  destruct (routes.lookup "todo_id" params) as [raw|]; [|reflexivity].
  destruct (routes.parse_int raw); [apply Hk | reflexivity].
Qed.

(** X18: a GET request never changes the store: whatever its path and body
    and whatever the state, the store after the application has answered
    it is the store before. *)
Theorem get_requests_leave_store_unchanged
    (path : string) (body : option routes.JsonBody) (utcnow : Z)
    (self : InMemoryTodoStorage) :
  snd (routes.app (routes.mk_request routes.GET path body) utcnow self) = self.
Proof.
  unfold routes.app. cbn [routes.req_method routes.req_path routes.req_body].
  destruct (routes.find_route routes.app_routes routes.GET path false)
    as [r params| |] eqn:F; [|reflexivity|reflexivity].
  apply find_route_Full in F. destruct F as (Hin & _ & Hm).
  unfold routes.app_routes, routes.router in Hin. cbn [In] in Hin.
  repeat (destruct Hin as [<-|Hin]; [try discriminate Hm|]);
    try contradiction; cbn [routes.route_endpoint routes.call].
  - reflexivity.
  - reflexivity.
  - apply snd_with_todo_id. intros todo_id.
    unfold routes.get_todo. rewrite snd_respond. apply service_get_state.
  - reflexivity.
Qed.

(** The path that the statistics template matches is matched by the
    template of the id routes as well. *)
Lemma stats_template_shadowed path params :
  routes.match_path "/api/todos/stats" path = Some params ->
  exists params',
    routes.match_path "/api/todos/{todo_id}" path = Some params'.
Proof.
  unfold routes.match_path.
  change (routes.segments "/api/todos/stats")
    with [""%string; "api"%string; "todos"%string; "stats"%string].
  change (routes.segments "/api/todos/{todo_id}")
    with [""%string; "api"%string; "todos"%string; "{todo_id}"%string].
  generalize (routes.segments path). intros segs.
  assert (Hlit : routes.param_name "" = None
                 /\ routes.param_name "api" = None
                 /\ routes.param_name "todos" = None
                 /\ routes.param_name "stats" = None
                 /\ routes.param_name "{todo_id}" = Some "todo_id"%string)
    by (repeat split; reflexivity).
  destruct Hlit as (H0 & H1 & H2 & H3 & H4).
  destruct segs as [|s0 segs]; cbn [routes.match_segments]; [discriminate|].
  rewrite H0. destruct (String.eqb "" s0); [|discriminate].
  destruct segs as [|s1 segs]; cbn [routes.match_segments]; [discriminate|].
  rewrite H1. destruct (String.eqb "api" s1); [|discriminate].
  destruct segs as [|s2 segs]; cbn [routes.match_segments]; [discriminate|].
  rewrite H2. destruct (String.eqb "todos" s2); [|discriminate].
  destruct segs as [|s3 segs]; cbn [routes.match_segments]; [discriminate|].
  rewrite H3, H4. destruct (String.eqb "stats" s3) eqn:E; [|discriminate].
  apply String.eqb_eq in E. subst s3.
  destruct segs as [|s4 segs]; [|discriminate].
  intros _. eexists. reflexivity.
Qed.

Lemma find_route_cons r routes m path partial :
  routes.find_route (r :: routes) m path partial
  = match routes.match_path (routes.route_path r) path with
    | Some params =>
        if routes.method_eqb (routes.route_method r) m
        then routes.Full r params
        else routes.find_route routes m path true
    | None => routes.find_route routes m path partial
    end.
Proof. reflexivity. Qed.

(** X19: no request reaches the statistics endpoint: whatever the method and
    the path, the route the application selects is never the one of
    [get_todo_stats], because every path its template matches is matched by
    the template of [get_todo], which is declared before it. *)
Theorem no_request_reaches_get_todo_stats
    (m : routes.Method) (path : string) :
  match routes.find_route routes.app_routes m path false with
  | routes.Full route _ =>
      routes.route_endpoint route <> routes.E_get_todo_stats
  | _ => True
  end.
Proof.
  destruct (routes.find_route routes.app_routes m path false)
    as [r params| |] eqn:F; [|exact I|exact I].
  intros Hstats.
  pose proof (find_route_Full _ _ _ _ _ _ F) as (Hin & Hmatch & Hm).
  assert (Hr : r = routes.mk_route routes.GET "/api/todos/stats"
                                   routes.E_get_todo_stats).
  { unfold routes.app_routes, routes.router in Hin. cbn [In] in Hin.
    repeat (destruct Hin as [<-|Hin]; [try discriminate Hstats|]);
      try contradiction. reflexivity. }
  subst r. cbn [routes.route_method routes.route_path] in Hm, Hmatch.
  subst m. destruct (stats_template_shadowed _ _ Hmatch) as [params' Hid].
  revert F. unfold routes.app_routes, routes.router.
  rewrite !find_route_cons.
  cbn [routes.route_path routes.route_method routes.method_eqb].
  change (routes.prefix ++ "/todos/{todo_id}")%string
    with "/api/todos/{todo_id}"%string.
  rewrite Hid.
  destruct (routes.match_path "/health" path); [discriminate|].
  destruct (routes.match_path (routes.prefix ++ "/todos") path);
    discriminate.
Qed.

(** * Further properties of the statistics and of the store as a whole *)

Lemma filter_length_perm {A : Type} (f : A -> bool) (l l' : list A) :
  Permutation l l' ->
  List.length (filter f l) = List.length (filter f l').
Proof.
  induction 1 as [|x l l' _ IH|x y l|l l' l'' _ IH1 _ IH2]; simpl.
  - reflexivity.
  - destruct (f x); simpl; now rewrite IH.
  - destruct (f x), (f y); reflexivity.
  - now rewrite IH1.
Qed.

Lemma filter_values_length (f : Todo.t -> bool) (d : Py.dict Todo.t) :
  List.length (filter f (map snd d))
  = List.length (filter (fun kv => f (snd kv)) d).
Proof.
  induction d as [|kv d IH]; simpl; [reflexivity|].
  destruct (f (snd kv)); simpl; now rewrite IH.
Qed.

(** X20: in every state of the store the statistics are those of the stored
    todos, whatever order the listing has put them in: total is the number
    of stored todos, completed the number of those with the flag raised and
    pending the number of those without. *)
Theorem get_todo_stats_counts_stored_todos (self : InMemoryTodoStorage) :
  services.get_todo_stats self
  = (Return (mk_stats (Z.of_nat (List.length (_todos self)))
                      (count_complete (_todos self))
                      (count_incomplete (_todos self))),
     self).
Proof.
  rewrite get_todo_stats_eq. cbv zeta. f_equal. f_equal.
  set (todos := Py.sorted Todo.created_at true (Py.values (_todos self))).
  assert (Hperm : Permutation (Py.values (_todos self)) todos)
    by apply sorted_reverse_perm.
  assert (Hlen : List.length todos = List.length (_todos self)).
  { rewrite <- (Permutation_length Hperm). unfold Py.values. apply length_map. }
  assert (Hc : services.count_completed todos = count_complete (_todos self)).
  { rewrite count_completed_filter, <- (filter_length_perm _ _ _ Hperm).
    unfold count_complete, Py.values. now rewrite filter_values_length. }
  assert (Hi : count_incomplete (_todos self)
               = Z.of_nat (List.length (_todos self))
                 - count_complete (_todos self)).
  { unfold count_incomplete, count_complete, incomplete, Py.values.
    pose proof (filter_complement_length
                  (fun kv : Z * Todo.t => Todo.completed (snd kv))
                  (_todos self)) as H.
    rewrite (filter_values_length (fun todo => negb (Todo.completed todo))).
    lia. }
  rewrite Hlen, Hc, Hi. reflexivity.
Qed.

(** X21: in every reachable state the stored ids are strictly increasing in
    the order of the store, positive and below the id counter, every todo
    is stored under its own id, and every stored title has between 1 and
    500 characters. *)
Theorem reachable_store_invariant
    (self : InMemoryTodoStorage) (Hreach : reachable self) :
  StronglySorted Z.lt (Py.keys (_todos self))
  /\ Forall (fun kv =>
               Todo.id (snd kv) = fst kv
               /\ 0 < fst kv < _next_id self
               /\ 1 <= Py.len (Todo.title (snd kv)) <= 500)
            (_todos self).
Proof.
  destruct (reachable_wf _ Hreach) as [Hs Hb He _]. split; [exact Hs|].
  rewrite Forall_forall in *. intros kv Hin.
  destruct (He _ Hin) as [Hid Hlen]. split; [exact Hid|]. split.
  - apply Hb. unfold Py.keys. now apply in_map.
  - apply title_ok_bounds in Hlen. now destruct Hlen.
Qed.

Lemma reachable_store_invariant_witness :
  StronglySorted Z.lt (Py.keys (_todos store_two)).
Proof.
  exact (proj1 (reachable_store_invariant store_two reachable_store_two)).
Defined.

(** ** The order of the listing *)

Lemma listing_newest_first self :
  wf self ->
  StronglySorted newest_first
    (Py.sorted Todo.created_at true (Py.values (_todos self))).
Proof.
  intros Hwf. pose proof (values_sorted_by_id _ Hwf) as Hid.
  unfold Py.sorted. apply StronglySorted_rev in Hid.
  apply (stable_sort_sorted Todo.created_at) in Hid.
  apply StronglySorted_rev in Hid.
  eapply StronglySorted_impl; [|exact Hid].
  unfold stable_order, newest_first. intros a b [H|[H1 H2]]; [left | right]; auto.
Qed.

(** Two lists with the same elements, both in the order [newest_first],
    are the same list. *)
Lemma newest_first_unique (l l' : list Todo.t) :
  Permutation l l' ->
  StronglySorted newest_first l -> StronglySorted newest_first l' -> l = l'.
Proof.
  intros Hperm Hl. revert l' Hperm.
  induction Hl as [|x t Ht IH Hx]; intros l' Hperm Hl'.
  - now apply Permutation_nil in Hperm.
  - destruct l' as [|y t'];
      [apply Permutation_sym, Permutation_nil in Hperm; discriminate|].
    inversion Hl' as [|? ? Ht' Hy]; subst.
    assert (Hxy : x = y).
    { assert (Hin1 : In x (y :: t'))
        by (eapply Permutation_in; [exact Hperm | now left]).
      assert (Hin2 : In y (x :: t))
        by (eapply Permutation_in;
            [apply Permutation_sym; exact Hperm | now left]).
      destruct Hin1 as [->|Hin1]; [reflexivity|].
      destruct Hin2 as [->|Hin2]; [reflexivity|].
      rewrite Forall_forall in Hx, Hy.
      specialize (Hx _ Hin2). specialize (Hy _ Hin1).
      unfold newest_first in Hx, Hy. lia. }
    subst y. f_equal. apply IH; [|exact Ht'].
    now apply Permutation_cons_inv in Hperm.
Qed.

(** X22: in every reachable state, if the todos carry strictly increasing
    timestamps in the order of their creation, the listing is the stored
    todos in exactly the reverse of that order; if they all carry the same
    timestamp, the listing is the stored todos in the order of their
    creation. *)
Theorem listing_order_by_timestamps
    (self : InMemoryTodoStorage) (Hreach : reachable self) :
  (StronglySorted (fun a b => Todo.created_at a < Todo.created_at b)
                  (Py.values (_todos self)) ->
   storage.get_all_todos self = (Return (rev (Py.values (_todos self))), self))
  /\ (StronglySorted (fun a b => Todo.created_at a = Todo.created_at b)
                     (Py.values (_todos self)) ->
      storage.get_all_todos self = (Return (Py.values (_todos self)), self)).
Proof.
  pose proof (reachable_wf _ Hreach) as Hwf.
  pose proof (listing_newest_first _ Hwf) as Hsorted.
  pose proof (values_sorted_by_id _ Hwf) as Hid.
  unfold storage.get_all_todos. split; intros Hts; do 2 f_equal.
  - apply newest_first_unique; [|exact Hsorted|].
    + rewrite <- sorted_reverse_perm. apply Permutation_rev.
    + apply StronglySorted_rev in Hts. eapply StronglySorted_impl; [|exact Hts].
      intros a b H. now left.
  - apply newest_first_unique; [|exact Hsorted|].
    + symmetry. apply sorted_reverse_perm.
    + clear Hsorted. induction Hts as [|x t Ht IH Hx]; [constructor|].
      inversion Hid as [|? ? Hid' Hidx]; subst.
      constructor; [now apply IH|].
      rewrite Forall_forall in *. intros y Hy. right. auto.
Qed.

Lemma listing_order_by_timestamps_witness :
  storage.get_all_todos store_scenario
  = (Return [Todo.mk 2 title_walk_dog false 2000;
             Todo.mk 1 title_buy_milk true 1000], store_scenario)
  /\ storage.get_all_todos store_two
     = (Return [Todo.mk 1 title_buy_milk true 1000;
                Todo.mk 2 title_walk_dog false 1000], store_two).
Proof.
  split.
  - refine (proj1 (listing_order_by_timestamps store_scenario _) _).
    + apply reachable_run. exact reachable_init.
    + vm_compute. repeat constructor.
  - refine (proj2 (listing_order_by_timestamps store_two
                     reachable_store_two) _).
    vm_compute. repeat constructor.
Defined.
